(** * MAFFA backend ([main.py]): gig listing, contact submission, diagnostics

    A shallow embedding of the three endpoints of [main.py] and the proofs
    of the properties its specification states about them.

    Python values are an inductive type, a stored document is a finite map
    from keys to values, exceptions are data, and a function that may raise
    returns a [result].  The wall clock read by [datetime.utcnow()] and the
    [response] dictionary that [test_database] updates in place are threaded
    as state, so that what a handler sees after an exception is what the
    interrupted block left behind.  What depends on the versions of the
    interpreter and of the schema library ([datetime.fromisoformat], the
    conversion of other values to a timestamp) is a parameter, a [Runtime],
    and the theorems hold for every runtime. *)

From Stdlib Require Import ZArith Ascii String Floats.
From stdpp Require Import base gmap strings list.

#[local] Set Warnings "-register-all".
#[local] Open Scope Z_scope.

(** ** Python runtime: strings, timestamps, values, exceptions *)

Module Py.

(** A Python [str] is kept as its UTF-8 encoding; indexing and slicing count
    code points, so the bytes [10xxxxxx] that continue a character are never
    counted on their own. *)
Definition is_continuation (a : ascii) : bool :=
  let n := Z.of_nat (nat_of_ascii a) in (128 <=? n) && (n <? 192).

(** [s[:n]] *)
Fixpoint str_take (n : nat) (s : string) : string :=
  match s with
  | EmptyString => EmptyString
  | String a r =>
      if is_continuation a then String a (str_take n r)
      else match n with
           | O => EmptyString
           | S n' => String a (str_take n' r)
           end
  end.

(** The rest of [s] after the bytes that continue the current character. *)
Fixpoint skip_continuation (s : string) : string :=
  match s with
  | String a r => if is_continuation a then skip_continuation r else s
  | EmptyString => EmptyString
  end.

(** [s[1:]], or [None] for the empty string. *)
Definition str_tail (s : string) : option string :=
  match s with
  | String _ r => Some (skip_continuation r)
  | EmptyString => None
  end.

(** [datetime.datetime]: the calendar fields, and the UTC offset in
    microseconds of an aware value ([None] for a naive one). *)
Record datetime := mk_datetime {
  year : Z; month : Z; day : Z;
  hour : Z; minute : Z; second : Z; microsecond : Z;
  tzinfo : option Z
}.

(** The values a stored document can hold. *)
Inductive PyVal : Type :=
| PNone
| PBool (b : bool)
| PInt (z : Z)
| PFloat (f : float)
| PStr (s : string)
| PDatetime (t : datetime)
| PObjectId (oid : string)
| PList (l : list PyVal)
| PDict (d : gmap string PyVal).

(** A stored document, and the dictionaries the endpoints build. *)
Abbreviation Doc := (gmap string PyVal).

(** Instances of [Exception], by class, with the text [str(e)] gives. *)
Inductive exn : Type :=
| ImportError (msg : string)
| ModuleNotFoundError (msg : string)
| AttributeError (msg : string)
| TypeError (msg : string)
| ValueError (msg : string)
| ValidationError (fields : list string)
| OtherException (cls : string) (msg : string).

(** [str(e)]; a validation error lists the fields that were refused. *)
Definition str_exn (e : exn) : string :=
  match e with
  | ImportError m | ModuleNotFoundError m | AttributeError m | TypeError m
  | ValueError m | OtherException _ m => m
  | ValidationError fields =>
      "validation errors for: " +:+ String.concat ", " fields
  end.

(** [isinstance(e, ImportError)]: [ModuleNotFoundError] is its subclass. *)
Definition is_ImportError (e : exn) : bool :=
  match e with
  | ImportError _ | ModuleNotFoundError _ => true
  | _ => false
  end.

(** [isinstance(e, AttributeError)] *)
Definition is_AttributeError (e : exn) : bool :=
  match e with
  | AttributeError _ => true
  | _ => false
  end.

(** The outcome of evaluating an expression: a value, or a raised exception. *)
Inductive outcome (E A : Type) : Type :=
| Ok (a : A)
| Raise (e : E).
Arguments Ok {E A} a.
Arguments Raise {E A} e.

Abbreviation result := (outcome exn).

#[global] Instance result_ret : MRet result := fun A a => Ok a.
#[global] Instance result_bind : MBind result := fun A B k r =>
  match r with
  | Ok a => k a
  | Raise e => Raise e
  end.

(** [bool(v)]: Python's truth value testing. *)
Definition py_bool (v : PyVal) : bool :=
  match v with
  | PNone => false
  | PBool b => b
  | PInt z => negb (z =? 0)
  | PFloat f => negb (PrimFloat.eqb f 0%float)
  | PStr s => negb (String.eqb s "")
  | PDatetime _ => true
  | PObjectId _ => true
  | PList l => negb (Nat.eqb (length l) 0)
  | PDict d => negb (Nat.eqb (size d) 0)
  end.

(** [d.get(key)] and [d.get(key, dflt)] *)
Definition get (d : Doc) (key : string) : PyVal := default PNone (d !! key).
Definition get_or (d : Doc) (key : string) (dflt : PyVal) : PyVal :=
  default dflt (d !! key).

(** [type(v).__name__] *)
Definition type_name (v : PyVal) : string :=
  match v with
  | PNone => "NoneType"
  | PBool _ => "bool"
  | PInt _ => "int"
  | PFloat _ => "float"
  | PStr _ => "str"
  | PDatetime _ => "datetime.datetime"
  | PObjectId _ => "ObjectId"
  | PList _ => "list"
  | PDict _ => "dict"
  end.

(** [v[:n]]: lists and strings are sliced, a dictionary cannot take a slice
    as a key, and other values are not subscriptable. *)
Definition slice_to (n : nat) (v : PyVal) : result PyVal :=
  match v with
  | PList l => Ok (PList (take n l))
  | PStr s => Ok (PStr (str_take n s))
  | PDict _ => Raise (TypeError "unhashable type: 'slice'")
  | _ => Raise (TypeError ("'" +:+ type_name v +:+ "' object is not subscriptable"))
  end.

(** *** Computations that raise and update a state

    [M S A] is a block of statements run in a state [S] (the clock, or a
    dictionary updated in place).  An exception leaves the state as the
    block left it, which is what the handler of a [try] then sees. *)
Definition M (S A : Type) : Type := S -> result A * S.

#[global] Instance M_ret {S} : MRet (M S) := fun A a s => (Ok a, s).
#[global] Instance M_bind {S} : MBind (M S) := fun A B k m s =>
  match m s with
  | (Ok a, s') => k a s'
  | (Raise e, s') => (Raise e, s')
  end.

(** The current state. *)
Definition getstate {S} : M S S := fun s => (Ok s, s).

(** An expression that does not touch the state. *)
Definition lift {S A} (r : result A) : M S A := fun s => (r, s).

(** [try: body  except Exception as e: handler e] *)
Definition try_except {S A} (body : M S A) (handler : exn -> M S A) : M S A :=
  fun s =>
    match body s with
    | (Ok a, s') => (Ok a, s')
    | (Raise e, s') => handler e s'
    end.

End Py.

(** ** A parser of ISO dates

    [fromisoformat_basic] parses the format
    [YYYY-MM-DD[*HH[:MM[:SS[.fff[fff]]]][+HH:MM[:SS[.ffffff]]]]], where [*]
    is any single character, with the fields in the ranges the [datetime]
    constructor checks.  Every version of [datetime.fromisoformat] parses
    these strings, and to these values; later versions accept more of
    ISO 8601 (a trailing [Z], dates without hyphens, other fractions).  The
    endpoints therefore take the parser of the interpreter that runs them as
    a parameter ([fromisoformat] of a [Runtime]); this one is the parser of
    the sample runtime, and the least that a runtime is taken to parse. *)

Module Datetime.
Import Py.

Definition digit (a : ascii) : option Z :=
  let n := Z.of_nat (nat_of_ascii a) in
  if (48 <=? n) && (n <=? 57) then Some (n - 48) else None.

(** Exactly [n] decimal digits at the head of [s], and what follows them. *)
Fixpoint digits (n : nat) (acc : Z) (s : string) : option (Z * string) :=
  match n with
  | O => Some (acc, s)
  | S n' =>
      match s with
      | String a r => d ← digit a; digits n' (10 * acc + d) r
      | EmptyString => None
      end
  end.

(** The given character at the head of [s], and what follows it. *)
Definition expect (c : ascii) (s : string) : option string :=
  match s with
  | String a r => if Ascii.eqb a c then Some r else None
  | EmptyString => None
  end.

(** The fraction after the point: three digits (milliseconds) or six. *)
Definition parse_fraction (s : string) : option Z :=
  match String.length s with
  | 3%nat => '(v, _) ← digits 3 0 s; Some (v * 1000)
  | 6%nat => '(v, _) ← digits 6 0 s; Some v
  | _ => None
  end.

(** [HH[:MM[:SS[.fff[fff]]]]], the whole of [s]. *)
Definition parse_hh_mm_ss_ff (s : string) : option (Z * Z * Z * Z) :=
  '(hh, s) ← digits 2 0 s;
  match s with
  | EmptyString => Some (hh, 0, 0, 0)
  | String ":" s =>
      '(mm, s) ← digits 2 0 s;
      match s with
      | EmptyString => Some (hh, mm, 0, 0)
      | String ":" s =>
          '(ss, s) ← digits 2 0 s;
          match s with
          | EmptyString => Some (hh, mm, ss, 0)
          | String "." s => us ← parse_fraction s; Some (hh, mm, ss, us)
          | _ => None
          end
      | _ => None
      end
  | _ => None
  end.

(** [s] split at its first [+] or [-]: the text before it, and the sign
    ([true] for [-]) with the text after it. *)
Fixpoint split_offset (s : string) : string * option (bool * string) :=
  match s with
  | EmptyString => (EmptyString, None)
  | String a r =>
      if Ascii.eqb a "+" then (EmptyString, Some (false, r))
      else if Ascii.eqb a "-" then (EmptyString, Some (true, r))
      else let '(t, o) := split_offset r in (String a t, o)
  end.

Definition usec_per_day : Z := 86400000000.

(** The UTC offset [HH:MM[:SS[.ffffff]]] in microseconds; [timezone]
    refuses an offset of a day or more. *)
Definition parse_offset (neg : bool) (s : string) : option Z :=
  match String.length s with
  | 5%nat | 8%nat | 15%nat =>
      '(hh, mm, ss, us) ← parse_hh_mm_ss_ff s;
      let off := ((hh * 3600 + mm * 60 + ss) * 1000000 + us) in
      if off <? usec_per_day then Some (if neg then - off else off) else None
  | _ => None
  end.

Definition is_leap (y : Z) : bool :=
  (y mod 4 =? 0) && (negb (y mod 100 =? 0) || (y mod 400 =? 0)).

Definition days_in_month (y m : Z) : Z :=
  if m =? 2 then (if is_leap y then 29 else 28)
  else if (m =? 4) || (m =? 6) || (m =? 9) || (m =? 11) then 30
  else 31.

(** The range checks of the [datetime] constructor. *)
Definition valid_datetime (t : datetime) : bool :=
  (1 <=? year t) && (year t <=? 9999) &&
  (1 <=? month t) && (month t <=? 12) &&
  (1 <=? day t) && (day t <=? days_in_month (year t) (month t)) &&
  (0 <=? hour t) && (hour t <=? 23) &&
  (0 <=? minute t) && (minute t <=? 59) &&
  (0 <=? second t) && (second t <=? 59) &&
  (0 <=? microsecond t) && (microsecond t <=? 999999).

(** The time of day and offset after the separator. *)
Definition parse_time (s : string) : option (Z * Z * Z * Z * option Z) :=
  let '(t, o) := split_offset s in
  '(hh, mm, ss, us) ← parse_hh_mm_ss_ff t;
  match o with
  | None => Some (hh, mm, ss, us, None)
  | Some (neg, z) => off ← parse_offset neg z; Some (hh, mm, ss, us, Some off)
  end.

Definition parse_isoformat (s : string) : option datetime :=
  '(y, s) ← digits 4 0 s;
  s ← expect "-" s;
  '(m, s) ← digits 2 0 s;
  s ← expect "-" s;
  '(d, s) ← digits 2 0 s;
  match str_tail s with
  | None => Some (mk_datetime y m d 0 0 0 0 None)
  | Some s =>
      '(hh, mm, ss, us, tz) ← parse_time s;
      Some (mk_datetime y m d hh mm ss us tz)
  end.

Definition fromisoformat_basic (s : string) : result datetime :=
  match parse_isoformat s with
  | Some t =>
      if valid_datetime t then Ok t
      else Raise (ValueError "field out of range")
  | None => Raise (ValueError ("Invalid isoformat string: " +:+ s))
  end.

End Datetime.

(** ** The installed libraries *)

Module Libraries.
Import Py.

(** What the interpreter and the schema library do where it depends on the
    versions installed. *)
Record Runtime := mk_Runtime {
  (** [datetime.fromisoformat] *)
  fromisoformat : string -> result datetime;
  (** the timestamp that the schema library makes of a value passed for a
      timestamp field when the value is neither a timestamp nor [None] (a
      number of seconds, for one); [None] when it refuses the value *)
  datetime_from : PyVal -> option datetime
}.

End Libraries.

(** ** [schemas.py] *)

Module Schemas.
Import Py Libraries.

(** Modelled from the spec: the [Gig] schema of [schemas.py], which is not
    among the sources.  The specification gives its fields and their types:
    [title], [venue] and [city] are text, [date] is a timestamp,
    [ticket_url] is optional text (the only field that may be null) and
    [is_confirmed] is a boolean.  Constructing a [Gig] checks every keyword
    argument against the type of its field and raises one [ValidationError]
    that names all the fields whose argument does not fit.  For [date] a
    timestamp is taken as it is and [None] is refused, the field not being
    optional; what becomes of any other value passed for it is left to the
    schema library ([datetime_from]). *)
Record Gig := mk_Gig {
  title : string;
  venue : string;
  city : string;
  date : datetime;
  ticket_url : option string;
  is_confirmed : bool
}.

(** The value as a field of each type, when it fits. *)
Definition as_str (v : PyVal) : option string :=
  match v with
  | PStr s => Some s
  | _ => None
  end.

Definition as_datetime (rt : Runtime) (v : PyVal) : option datetime :=
  match v with
  | PDatetime t => Some t
  | PNone => None
  | _ => datetime_from rt v
  end.

Definition as_optional_str (v : PyVal) : option (option string) :=
  match v with
  | PNone => Some None
  | PStr s => Some (Some s)
  | _ => None
  end.

Definition as_bool (v : PyVal) : option bool :=
  match v with
  | PBool b => Some b
  | _ => None
  end.

(** The field is reported when its argument did not fit. *)
Definition misfit {A} (field : string) (o : option A) : list string :=
  match o with
  | Some _ => []
  | None => [field]
  end.

(** [Gig(title=..., venue=..., city=..., date=..., ticket_url=...,
    is_confirmed=...)] *)
Definition Gig_init (rt : Runtime)
    (title venue city date ticket_url is_confirmed : PyVal) : result Gig :=
  let t := as_str title in
  let v := as_str venue in
  let c := as_str city in
  let d := as_datetime rt date in
  let u := as_optional_str ticket_url in
  let b := as_bool is_confirmed in
  match t, v, c, d, u, b with
  | Some t, Some v, Some c, Some d, Some u, Some b => Ok (mk_Gig t v c d u b)
  | _, _, _, _, _, _ =>
      Raise (ValidationError
               (misfit "title" t ++ misfit "venue" v ++ misfit "city" c ++
                misfit "date" d ++ misfit "ticket_url" u ++
                misfit "is_confirmed" b))
  end.

End Schemas.

(** ** [database.py] and the process environment *)

Module Database.
Import Py.

(** The client handle [db]: what reading its attribute [name] gives (an
    [AttributeError] when it has none) and what [db.list_collection_names()]
    gives. *)
Record Db := mk_Db {
  getattr_name : result PyVal;
  list_collection_names : result PyVal
}.

(** Everything outside [main.py] that an endpoint call meets.  [Message] is
    the contact schema of [schemas.py]; the endpoint framework validates the
    request body against it before [submit_contact] runs. *)
Record World := mk_World {
  Message : Type;
  (** the successive readings of [datetime.utcnow()] *)
  clock : nat -> datetime;
  (** [get_documents(collection, filter, limit)] *)
  get_documents : string -> Doc -> Z -> result (list Doc);
  (** [create_document(collection, payload)] *)
  create_document : string -> Message -> result PyVal;
  (** [from database import db]: an exception, [None], or a handle *)
  import_db : result (option Db);
  (** [os.environ] *)
  environ : gmap string string
}.

(** [os.getenv(key)] *)
Definition getenv (w : World) (key : string) : PyVal :=
  match environ w !! key with
  | Some v => PStr v
  | None => PNone
  end.

(** [hasattr(db, 'name')]: only an [AttributeError] means no. *)
Definition hasattr_name (db : Db) : result bool :=
  match getattr_name db with
  | Ok _ => Ok true
  | Raise e => if is_AttributeError e then Ok false else Raise e
  end.

End Database.

(** ** [main.py] *)

Module Main.
Import Py Libraries Schemas Database.

(** [HTTPException(status_code=..., detail=...)] *)
Record HTTPException := mk_HTTPException {
  status_code : Z;
  detail : string
}.

(** The status of the HTTP response to a call of an endpoint: 200 when the
    function returns, the code of a raised [HTTPException], and 500 for any
    other exception that leaves it. *)
Class Status (E : Type) := status_of : E -> Z.
#[global] Instance exn_status : Status exn := fun _ => 500.
#[global] Instance http_status : Status HTTPException := status_code.

Definition response_status {E A} `{Status E} (r : outcome E A) : Z :=
  match r with
  | Ok _ => 200
  | Raise e => status_of e
  end.

Section Endpoints.
Variable rt : Runtime.
Variable w : World.

(** *** [list_gigs] *)

(** [datetime.utcnow()]: the state counts the readings taken so far. *)
Definition utcnow : M nat datetime := fun n => (Ok (clock w n), S n).

(** Lines 35-39: a string is parsed, and replaced by the current time when
    it does not parse; any other value is left as it is. *)
Definition coerce_date (date_val : PyVal) : M nat PyVal :=
  match date_val with
  | PStr s =>
      try_except (t ← lift (fromisoformat rt s); mret (PDatetime t))
                 (fun _ => t ← utcnow; mret (PDatetime t))
  | _ => mret date_val
  end.

(** Lines 34-47, the body of the loop for one document [d]. *)
Definition normalize (d : Doc) : M nat Gig :=
  date_val ← coerce_date (get d "date");
  lift (Gig_init rt
                 (get_or d "title" (PStr ""))
                 (get_or d "venue" (PStr ""))
                 (get_or d "city" (PStr ""))
                 date_val
                 (get d "ticket_url")
                 (PBool (py_bool (get_or d "is_confirmed" (PBool true))))).

(** Lines 32-47: [for d in docs: gigs.append(Gig(...))] *)
Fixpoint list_gigs_loop (docs : list Doc) (gigs : list Gig)
  : M nat (list Gig) :=
  match docs with
  | [] => mret gigs
  | d :: docs => g ← normalize d; list_gigs_loop docs (gigs ++ [g])
  end.

(** Lines 29-48, the block under [try]. *)
Definition list_gigs_try (limit : Z) : M nat (list Gig) :=
  docs ← lift (get_documents w "gig" ∅ limit);
  list_gigs_loop docs [].

Definition list_gigs (limit : Z) : M nat (list Gig) :=
  try_except (list_gigs_try limit) (fun _ => mret []).

(** *** [submit_contact] *)

Definition submit_contact (message : Message w)
  : outcome HTTPException Doc :=
  match create_document w "message" message with
  | Ok doc_id => Ok {[ "status" := PStr "ok"; "id" := doc_id ]}
  | Raise e => Raise (mk_HTTPException 500 (str_exn e))
  end.

(** *** [test_database] *)

(** [response[key] = v] *)
Definition setitem (key : string) (v : PyVal) : M Doc unit :=
  fun response => (Ok tt, <[key := v]> response).

(** Lines 65-72. *)
Definition response0 : Doc :=
  {[ "backend" := PStr "✅ Running";
     "database" := PStr "❌ Not Available";
     "database_url" := PNone;
     "database_name" := PNone;
     "connection_status" := PStr "Not Connected";
     "collections" := PList [] ]}.

(** Lines 83-88. *)
Definition list_collections (db : Db) : M Doc unit :=
  try_except
    (collections ← lift (list_collection_names db);
     first10 ← lift (slice_to 10 collections);
     setitem "collections" first10;;
     setitem "database" (PStr "✅ Connected & Working"))
    (fun e =>
       setitem "database"
         (PStr ("⚠️  Connected but Error: " +:+ str_take 50 (str_exn e)))).

(** Lines 75-90, the block under the outer [try]. *)
Definition test_database_try : M Doc unit :=
  db ← lift (import_db w);
  match db with
  | Some db =>
      setitem "database" (PStr "✅ Available");;
      setitem "database_url" (PStr "✅ Configured");;
      has_name ← lift (hasattr_name db);
      name ← (if has_name : bool then lift (getattr_name db)
              else mret (PStr "✅ Connected"));
      setitem "database_name" name;;
      setitem "connection_status" (PStr "Connected");;
      list_collections db
  | None => setitem "database" (PStr "⚠️  Available but not initialized")
  end.

(** The marker of lines 97-98 for an environment variable. *)
Definition set_marker (key : string) : PyVal :=
  if py_bool (getenv w key) then PStr "✅ Set" else PStr "❌ Not Set".

(** Lines 74-95: the outer [try] with its two handlers. *)
Definition test_database_probe : M Doc unit :=
  try_except test_database_try
    (fun e =>
       if is_ImportError e then
         setitem "database"
           (PStr "❌ Database module not found (run enable-database first)")
       else
         setitem "database" (PStr ("❌ Error: " +:+ str_take 50 (str_exn e)))).

(** Lines 74-100; the [response] returned is the state at the end. *)
Definition test_database_body : M Doc Doc :=
  test_database_probe;;
  setitem "database_url" (set_marker "DATABASE_URL");;
  setitem "database_name" (set_marker "DATABASE_NAME");;
  getstate.

Definition test_database : result Doc := fst (test_database_body response0).

End Endpoints.
End Main.

Import Py Datetime Libraries Schemas Database Main.

(** ** Predicates on stored documents, environments and reports *)

Module Shape.

(** The stored value is text, or the key is absent. *)
Definition text_or_absent (o : option PyVal) : bool :=
  match o with
  | None | Some (PStr _) => true
  | Some _ => false
  end.

(** The stored value is a timestamp or a string. *)
Definition timestamp_or_text (o : option PyVal) : bool :=
  match o with
  | Some (PDatetime _) | Some (PStr _) => true
  | _ => false
  end.

(** The stored value is text or null, or the key is absent. *)
Definition text_null_or_absent (o : option PyVal) : bool :=
  match o with
  | None | Some PNone | Some (PStr _) => true
  | Some _ => false
  end.

(** The documents whose stored values fit the fields of [Gig]. *)
Definition fits_gig (d : Doc) : bool :=
  text_or_absent (d !! "title") &&
  text_or_absent (d !! "venue") &&
  text_or_absent (d !! "city") &&
  timestamp_or_text (d !! "date") &&
  text_null_or_absent (d !! "ticket_url").

(** The environment variable is set, and to a value that is not empty. *)
Definition env_nonempty (w : World) (key : string) : bool :=
  match environ w !! key with
  | Some v => negb (String.eqb v "")
  | None => false
  end.

(** The value under [key] in the report of [test_database]. *)
Definition report_field (w : World) (key : string) : option PyVal :=
  match test_database w with
  | Ok response => response !! key
  | Raise _ => None
  end.

(** The report once the client handle was found, before its collections
    are listed: lines 78-81 applied to [response]. *)
Definition connected (name : PyVal) (response : Doc) : Doc :=
  <["connection_status" := PStr "Connected"]>
    (<["database_name" := name]>
       (<["database_url" := PStr "✅ Configured"]>
          (<["database" := PStr "✅ Available"]> response))).

(** The fields of a validation error of [Gig], from the arguments. *)
Definition misfits (rt : Runtime) (t v c d u b : PyVal) : list string :=
  misfit "title" (as_str t) ++ misfit "venue" (as_str v) ++
  misfit "city" (as_str c) ++ misfit "date" (as_datetime rt d) ++
  misfit "ticket_url" (as_optional_str u) ++ misfit "is_confirmed" (as_bool b).


(** Lines 84-85: the value stored under ["collections"], or the exception
    that listing or slicing raised. *)
Definition first_collections (db : Db) : result PyVal :=
  list_collection_names db ≫= slice_to 10.

End Shape.

(** ** Sample documents and worlds *)

Module Samples.

(** A runtime that parses the basic format only and converts nothing else
    to a timestamp. *)
Definition python_basic : Runtime :=
  mk_Runtime fromisoformat_basic (fun _ => None).

(** A runtime that also accepts a trailing [Z] for UTC, and takes the
    number 0 for the start of 1970. *)
Definition python_lenient : Runtime :=
  mk_Runtime
    (fun s =>
       match fromisoformat_basic s with
       | Ok t => Ok t
       | Raise e =>
           if String.eqb s "2024-06-01T20:00:00Z"
           then Ok (mk_datetime 2024 6 1 20 0 0 0 (Some 0))
           else Raise e
       end)
    (fun v =>
       match v with
       | PInt 0 => Some (mk_datetime 1970 1 1 0 0 0 0 (Some 0))
       | _ => None
       end).

Definition new_year : datetime := mk_datetime 2025 1 1 0 0 0 0 None.
Definition june_first : datetime := mk_datetime 2024 6 1 20 0 0 0 None.

(** A clock that advances by one second per reading. *)
Definition ticking (n : nat) : datetime :=
  mk_datetime 2025 1 1 0 0 (Z.of_nat n) 0 None.

Definition gig_june : Doc :=
  {[ "title" := PStr "Warehouse Night";
     "venue" := PStr "Tresor";
     "city" := PStr "Berlin";
     "date" := PStr "2024-06-01T20:00:00";
     "ticket_url" := PStr "https://tickets.example/1";
     "is_confirmed" := PInt 0 ]}.

(** The same evening, the date written with a trailing [Z]. *)
Definition gig_june_utc : Doc :=
  <["date" := PStr "2024-06-01T20:00:00Z"]> gig_june.

(** The date stored as the number 0. *)
Definition gig_epoch : Doc :=
  {[ "title" := PStr "Archive"; "date" := PInt 0 ]}.

(** Only a title and a date, the date stored as a timestamp. *)
Definition gig_sparse : Doc :=
  {[ "title" := PStr "Open Air"; "date" := PDatetime new_year ]}.

Definition gig_bad_date : Doc :=
  {[ "title" := PStr "Afterhours"; "date" := PStr "not-a-date";
     "is_confirmed" := PStr "false" ]}.

(** Well-formed text fields, and no [date] key. *)
Definition gig_no_date : Doc :=
  {[ "title" := PStr "Secret Set"; "venue" := PStr "TBA";
     "city" := PStr "Milan" ]}.

Definition db_outage : exn :=
  OtherException "Exception" "Database not available".

Definition twelve_names : list PyVal :=
  PStr <$> ["a"; "b"; "c"; "d"; "e"; "f"; "g"; "h"; "i"; "j"; "k"; "l"].

Definition db_live : Db :=
  mk_Db (Ok (PStr "maffa")) (Ok (PList twelve_names)).

Definition db_listing_fails : Db :=
  mk_Db (Ok (PStr "maffa"))
        (Raise (OtherException "ServerSelectionTimeoutError" "timed out")).

(** A healthy store holding [docs], with the given environment. *)
Definition world_with (docs : list Doc) (env : gmap string string) : World :=
  mk_World string ticking
    (fun _ _ limit => Ok (take (Z.to_nat limit) docs))
    (fun _ _ => Ok (PStr "665f1c"))
    (Ok (Some db_live))
    env.

(** No database is configured: every store call raises, [db] is [None]. *)
Definition world_down : World :=
  mk_World string ticking
    (fun _ _ _ => Raise db_outage)
    (fun _ _ => Raise db_outage)
    (Ok None)
    ∅.

(** The client is there and the server does not answer. *)
Definition world_flaky : World :=
  mk_World string ticking
    (fun _ _ _ => Raise db_outage)
    (fun _ _ => Raise db_outage)
    (Ok (Some db_listing_fails))
    ∅.

Definition world_mixed : World :=
  world_with [gig_june; gig_no_date; gig_sparse] ∅.

Definition world_clean : World :=
  world_with [gig_june; gig_bad_date; gig_sparse] ∅.

Definition env_blank_url : gmap string string :=
  {[ "DATABASE_URL" := ""; "DATABASE_NAME" := "maffa" ]}.
Definition env_local : gmap string string :=
  {[ "DATABASE_URL" := "mongodb://localhost:27017"; "DATABASE_NAME" := "maffa" ]}.
Definition env_remote : gmap string string :=
  {[ "DATABASE_URL" := "mongodb://db.internal:27017"; "DATABASE_NAME" := "prod" ]}.

End Samples.

(** ** Quantities of a batch and of the report *)

Module Batch.
Import Shape Samples.

(** [len(s)] *)
Fixpoint str_len (s : string) : nat :=
  match s with
  | EmptyString => O
  | String a r => if is_continuation a then str_len r else S (str_len r)
  end.

(** The stored date is a string that the runtime's [fromisoformat] refuses,
    so that line 39 runs and reads the clock. *)
Definition unparseable_date (rt : Runtime) (d : Doc) : bool :=
  match d !! "date" with
  | Some (PStr s) =>
      match fromisoformat rt s with
      | Ok _ => false
      | Raise _ => true
      end
  | _ => false
  end.

(** The documents of a batch that make the loop read the clock. *)
Definition clock_reads (rt : Runtime) (docs : list Doc) : nat :=
  length (List.filter (unparseable_date rt) docs).

(** The keys that lines 34-46 read from a document. *)
Definition gig_keys : list string :=
  ["date"; "title"; "venue"; "city"; "ticket_url"; "is_confirmed"].

(** The keys of [response], lines 65-72. *)
Definition report_keys : gset string :=
  list_to_set ["backend"; "database"; "database_url"; "database_name";
               "connection_status"; "collections"].

(** The probe gets as far as line 81: the module is imported, [db] is a
    handle, and looking for its [name] attribute raises nothing. *)
Definition handle_usable (w : World) : bool :=
  match import_db w with
  | Ok (Some db) =>
      match hasattr_name db with
      | Ok _ => true
      | Raise _ => false
      end
  | _ => false
  end.

(** Lines 84-85 run and raise nothing. *)
Definition listing_works (w : World) : bool :=
  match import_db w with
  | Ok (Some db) =>
      match hasattr_name db, first_collections db with
      | Ok _, Ok _ => true
      | _, _ => false
      end
  | _ => false
  end.

(** A stored document as the database returns it, with its [_id]. *)
Definition gig_june_stored : Doc :=
  <["_id" := PObjectId "665f1c0a"]> (<["notes" := PInt 3]> gig_june).

Definition world_two_bad : World :=
  world_with [gig_bad_date; gig_june; gig_bad_date] ∅.

(** A date with a trailing [Z], then one that is no date at all. *)
Definition world_utc : World := world_with [gig_june_utc; gig_bad_date] ∅.

(** Two stores with the same documents: one clock runs, the other stands
    still at another date. *)
Definition world_ticking : World := world_with [gig_june; gig_sparse] ∅.
Definition world_frozen : World :=
  mk_World string (fun _ => june_first)
    (fun _ _ _ => Ok [gig_june; gig_sparse])
    (fun _ _ => Raise db_outage)
    (Ok None)
    ∅.

(** The same handle under two names, and one without the attribute. *)
Definition db_renamed : Db :=
  mk_Db (Ok (PStr "staging")) (Ok (PList twelve_names)).
Definition db_nameless : Db :=
  mk_Db (Raise (AttributeError "name")) (Ok (PList twelve_names)).

Definition world_of_db (db : Db) : World :=
  mk_World string ticking
    (fun _ _ _ => Ok [])
    (fun _ _ => Ok (PStr "665f1c"))
    (Ok (Some db))
    env_local.

Definition long_error : exn :=
  OtherException "ServerSelectionTimeoutError"
    "db.internal:27017: [Errno 111] Connection refused, Timeout: 30s, Topology Description: unknown".

Definition db_refused : Db := mk_Db (Ok (PStr "maffa")) (Raise long_error).

End Batch.

Import Shape Samples Batch.

(** ** Proofs *)

(** Runs the blocks of [test_database] down to the updates of the report. *)
Ltac run_probe :=
  cbv beta iota delta
    [test_database_body test_database_probe test_database_try list_collections
     try_except mbind M_bind mret M_ret setitem lift getstate fst snd].

(** Reads a key of the report after a series of assignments. *)
Ltac read_report :=
  unfold connected; rewrite ?lookup_insert_ne by done;
  first [apply lookup_insert_eq | reflexivity].

(** *** Running the blocks *)

Section Run.
Context {S : Type}.

Lemma run_bind {A B} (m : M S A) (k : A -> M S B) (s : S) :
  (m ≫= k) s =
  match m s with
  | (Ok a, s') => k a s'
  | (Raise e, s') => (Raise e, s')
  end.
Proof. reflexivity. Qed.

Lemma run_try_except {A} (body : M S A) (handler : exn -> M S A) (s : S) :
  try_except body handler s =
  match body s with
  | (Ok a, s') => (Ok a, s')
  | (Raise e, s') => handler e s'
  end.
Proof. reflexivity. Qed.

End Run.

(** *** Normalising one document *)

Section Normalize.
Variable rt : Runtime.
Variable w : World.

(** The date coercion, case by case; it never raises. *)
Lemma coerce_date_run (v : PyVal) (n : nat) :
  coerce_date rt w v n =
  match v with
  | PStr s =>
      match fromisoformat rt s with
      | Ok t => (Ok (PDatetime t), n)
      | Raise _ => (Ok (PDatetime (clock w n)), S n)
      end
  | _ => (Ok v, n)
  end.
Proof.
  destruct v; try reflexivity.
  unfold coerce_date. rewrite run_try_except, run_bind. unfold lift.
  destruct (fromisoformat rt s); reflexivity.
Qed.

Lemma normalize_run (d : Doc) (n : nat) :
  normalize rt w d n =
  let '(r, n') := coerce_date rt w (get d "date") n in
  match r with
  | Ok date_val =>
      (Gig_init rt (get_or d "title" (PStr "")) (get_or d "venue" (PStr ""))
                (get_or d "city" (PStr "")) date_val (get d "ticket_url")
                (PBool (py_bool (get_or d "is_confirmed" (PBool true)))), n')
  | Raise e => (Raise e, n')
  end.
Proof.
  unfold normalize. rewrite run_bind.
  destruct (coerce_date rt w (get d "date") n) as [[v|e] n']; reflexivity.
Qed.

End Normalize.

(** *** The [Gig] constructor *)

Section Constructor.
Variable rt : Runtime.

Lemma Gig_init_run (t v c d u b : PyVal) :
  Gig_init rt t v c d u b =
  match as_str t, as_str v, as_str c,
        as_datetime rt d, as_optional_str u, as_bool b with
  | Some t, Some v, Some c, Some d, Some u, Some b => Ok (mk_Gig t v c d u b)
  | _, _, _, _, _, _ => Raise (ValidationError (misfits rt t v c d u b))
  end.
Proof. reflexivity. Qed.

Lemma as_str_Some (v : PyVal) (s : string) : as_str v = Some s → v = PStr s.
Proof. destruct v; cbn; congruence. Qed.

Lemma as_optional_str_Some (v : PyVal) (o : option string) :
  as_optional_str v = Some o →
  v = match o with Some s => PStr s | None => PNone end.
Proof. destruct v; cbn; intros [= <-]; reflexivity. Qed.

Lemma as_bool_Some (v : PyVal) (b : bool) : as_bool v = Some b → v = PBool b.
Proof. destruct v; cbn; congruence. Qed.

Lemma Gig_init_Ok_inv (t v c d u b : PyVal) (g : Gig) :
  Gig_init rt t v c d u b = Ok g →
  t = PStr (title g) ∧ v = PStr (venue g) ∧ c = PStr (city g) ∧
  as_datetime rt d = Some (date g) ∧
  u = match ticket_url g with Some s => PStr s | None => PNone end ∧
  b = PBool (is_confirmed g).
Proof.
  rewrite Gig_init_run.
  destruct (as_str t) eqn:Ht; [|discriminate].
  destruct (as_str v) eqn:Hv; [|discriminate].
  destruct (as_str c) eqn:Hc; [|discriminate].
  destruct (as_datetime rt d) eqn:Hd; [|discriminate].
  destruct (as_optional_str u) eqn:Hu; [|discriminate].
  destruct (as_bool b) eqn:Hb; [|discriminate].
  intros [= <-]. cbn.
  repeat split; auto using as_str_Some, as_optional_str_Some, as_bool_Some.
Qed.

(** What the constructor raises is a validation error that names exactly
    the fields whose argument does not fit, and there is one at least. *)
Lemma Gig_init_Raise_inv (t v c d u b : PyVal) (e : exn) :
  Gig_init rt t v c d u b = Raise e →
  e = ValidationError (misfits rt t v c d u b) ∧ misfits rt t v c d u b ≠ [].
Proof.
  rewrite Gig_init_run. unfold misfits.
  destruct (as_str t), (as_str v), (as_str c), (as_datetime rt d),
    (as_optional_str u), (as_bool b); intros [= <-]; done.
Qed.

Lemma Gig_init_fits (t v c : string) (d : datetime) (u : PyVal) (b : bool) :
  Gig_init rt (PStr t) (PStr v) (PStr c) (PDatetime d) u (PBool b) =
  match u with
  | PNone => Ok (mk_Gig t v c d None b)
  | PStr s => Ok (mk_Gig t v c d (Some s) b)
  | _ => Raise (ValidationError ["ticket_url"])
  end.
Proof. destruct u; reflexivity. Qed.

(** Which fields the constructor refuses does not depend on which timestamp
    is passed for [date]. *)
Lemma Gig_init_Raise_any_date (t v c u b : PyVal) (d d' : datetime) (e : exn) :
  Gig_init rt t v c (PDatetime d) u b = Raise e →
  Gig_init rt t v c (PDatetime d') u b = Raise e.
Proof.
  rewrite !Gig_init_run. unfold misfits. cbn.
  destruct (as_str t), (as_str v), (as_str c), (as_optional_str u), (as_bool b);
    done.
Qed.

(** A field whose argument fits is not among those refused. *)
Lemma misfit_other {A} (field key : string) (o : option A) :
  key ∈ misfit field o → key = field ∧ o = None.
Proof.
  destruct o; cbn; [by intros ?%elem_of_nil|].
  by intros ->%list_elem_of_singleton.
Qed.

Lemma misfits_inv (key : string) (t v c d u b : PyVal) :
  key ∈ misfits rt t v c d u b →
  (key = "title" ∧ as_str t = None) ∨
  (key = "venue" ∧ as_str v = None) ∨
  (key = "city" ∧ as_str c = None) ∨
  (key = "date" ∧ as_datetime rt d = None) ∨
  (key = "ticket_url" ∧ as_optional_str u = None) ∨
  (key = "is_confirmed" ∧ as_bool b = None).
Proof.
  unfold misfits. rewrite !elem_of_app.
  intros [H|[H|[H|[H|[H|H]]]]]; apply misfit_other in H; tauto.
Qed.

End Constructor.

(** *** What [d.get] gives for the shapes of stored values *)

Lemma get_or_text (d : Doc) (key s : string) :
  get_or d key (PStr "") = PStr s → text_or_absent (d !! key) = true.
Proof. unfold get_or. destruct (d !! key) as [v|]; cbn; [intros -> |]; done. Qed.

Lemma text_get_or (d : Doc) (key : string) :
  text_or_absent (d !! key) = true → ∃ s, get_or d key (PStr "") = PStr s.
Proof.
  unfold get_or. destruct (d !! key) as [[]|]; cbn; try discriminate; eauto.
Qed.

Section NormalizeShape.
Variable rt : Runtime.
Variable w : World.

Lemma coerce_date_timestamp (d : Doc) (n n' : nat) (t : datetime) :
  coerce_date rt w (get d "date") n = (Ok (PDatetime t), n') →
  timestamp_or_text (d !! "date") = true.
Proof.
  rewrite coerce_date_run. unfold get.
  destruct (d !! "date") as [[]|]; cbn; congruence.
Qed.

Lemma timestamp_coerce_date (d : Doc) (n : nat) :
  timestamp_or_text (d !! "date") = true →
  ∃ t n', coerce_date rt w (get d "date") n = (Ok (PDatetime t), n').
Proof.
  rewrite coerce_date_run. unfold get.
  destruct (d !! "date") as [[]|]; cbn; try discriminate; intros _; eauto.
  destruct (fromisoformat rt s); eauto.
Qed.

Lemma coerce_date_Ok (v : PyVal) (n : nat) :
  ∃ v' n', coerce_date rt w v n = (Ok v', n').
Proof.
  rewrite coerce_date_run.
  destruct v; eauto. destruct (fromisoformat rt s); eauto.
Qed.

(** The [Gig] returned carries the timestamp that the coercion gave. *)
Lemma normalize_Ok_date (d : Doc) (n n' m : nat) (g : Gig) (t : datetime) :
  normalize rt w d n = (Ok g, n') →
  coerce_date rt w (get d "date") n = (Ok (PDatetime t), m) →
  date g = t ∧ m = n'.
Proof.
  rewrite normalize_run. intros Hg Ht. rewrite Ht in Hg.
  injection Hg as Hg <-.
  by apply Gig_init_Ok_inv in Hg as (_ & _ & _ & [= ->] & _).
Qed.

(** Without a date, or with a null one, the constructor refuses [date]. *)
Lemma normalize_no_date_raises (d : Doc) (n : nat) :
  get d "date" = PNone →
  ∃ fields, normalize rt w d n = (Raise (ValidationError fields), n) ∧
    "date" ∈ fields.
Proof.
  intros Hd. rewrite normalize_run, Hd, coerce_date_run, Gig_init_run.
  unfold misfits.
  destruct (as_str _), (as_str _), (as_str _); cbn;
    eexists; (split; [reflexivity|]); repeat constructor.
Qed.

(** Whatever makes [normalize] raise is a validation error of [Gig]. *)
Lemma normalize_Raise_validation (d : Doc) (n n' : nat) (e : exn) :
  normalize rt w d n = (Raise e, n') →
  ∃ fields, e = ValidationError fields ∧ fields ≠ [].
Proof.
  rewrite normalize_run.
  destruct (coerce_date_Ok (get d "date") n) as (v & m & ->).
  intros [= He _]. apply Gig_init_Raise_inv in He. eauto.
Qed.

Lemma coerce_date_misfit (d : Doc) (n m : nat) (v : PyVal) :
  coerce_date rt w (get d "date") n = (Ok v, m) →
  as_datetime rt v = None → timestamp_or_text (d !! "date") = false.
Proof.
  rewrite coerce_date_run. unfold get.
  destruct (d !! "date") as [[| | | |s| | | |]|]; cbn;
    try (intros [= <- _]; cbn; congruence).
  destruct (fromisoformat rt s); intros [= <- _]; discriminate.
Qed.

(** A field is named by the error only if its argument does not fit. *)
Lemma normalize_Raise_field (d : Doc) (n n' : nat) (fields : list string)
    (key : string) :
  normalize rt w d n = (Raise (ValidationError fields), n') →
  key ∈ fields →
  (key = "title" ∧ as_str (get_or d "title" (PStr "")) = None) ∨
  (key = "venue" ∧ as_str (get_or d "venue" (PStr "")) = None) ∨
  (key = "city" ∧ as_str (get_or d "city" (PStr "")) = None) ∨
  (key = "date" ∧ timestamp_or_text (d !! "date") = false) ∨
  (key = "ticket_url" ∧ as_optional_str (get d "ticket_url") = None).
Proof.
  rewrite normalize_run.
  destruct (coerce_date_Ok (get d "date") n) as (v & m & Hv). rewrite Hv.
  intros [= He _] Hkey.
  apply Gig_init_Raise_inv in He as [[= ->] _].
  apply misfits_inv in Hkey as [?|[?|[?|[[-> ?]|[?|[_ ?]]]]]];
    [tauto..| |tauto|discriminate].
  do 3 right. left. eauto using coerce_date_misfit.
Qed.

(** A document whose values fit the schema does give a [Gig]. *)
Lemma normalize_fits_returns (d : Doc) (n : nat) :
  fits_gig d = true → ∃ g n', normalize rt w d n = (Ok g, n').
Proof.
  unfold fits_gig. intros H.
  repeat (apply andb_true_iff in H as [H ?]).
  destruct (text_get_or d "title") as [t Ht]; [done|].
  destruct (text_get_or d "venue") as [v Hv]; [done|].
  destruct (text_get_or d "city") as [c Hc]; [done|].
  destruct (timestamp_coerce_date d n) as (x & n' & Hx); [done|].
  rewrite normalize_run, Hx, Ht, Hv, Hc, Gig_init_fits. unfold get.
  destruct (d !! "ticket_url") as [[]|]; cbn; try discriminate; eauto.
Qed.

End NormalizeShape.

(** *** C1: normalising a stored document *)

(** C1 (the claim as stated fails): a document whose text fields are all
    well formed but which has no [date] key makes the construction of the
    [Gig] raise a validation error, so normalisation does raise; it does so
    with either sample runtime. *)
Lemma normalize_raises_without_date :
  gig_no_date !! "title" = Some (PStr "Secret Set") ∧
  gig_no_date !! "date" = None ∧
  normalize python_basic world_mixed gig_no_date 0%nat
    = (Raise (ValidationError ["date"]), 0%nat) ∧
  normalize python_lenient world_mixed gig_no_date 0%nat
    = (Raise (ValidationError ["date"]), 0%nat).
Proof. repeat split; vm_compute; reflexivity. Qed.

(** C1 (as amended): for the documents whose stored values fit the schema
    (text or absent for title, venue and city; a timestamp or a string for
    date; text, null or absent for ticket_url) normalisation does not raise
    and every field of the [Gig] is populated from the document,
    [ticket_url] being the only one that can be null.  A document without a
    date, or with a null one, makes the constructor raise a validation
    error that names [date]. *)
Theorem normalize_fits_gig (rt : Runtime) (w : World) (d : Doc) (n : nat) :
  (fits_gig d = true →
   ∃ g n', normalize rt w d n = (Ok g, n') ∧
     get_or d "title" (PStr "") = PStr (title g) ∧
     get_or d "venue" (PStr "") = PStr (venue g) ∧
     get_or d "city" (PStr "") = PStr (city g) ∧
     coerce_date rt w (get d "date") n = (Ok (PDatetime (date g)), n') ∧
     get d "ticket_url" =
       match ticket_url g with Some s => PStr s | None => PNone end ∧
     is_confirmed g = py_bool (get_or d "is_confirmed" (PBool true))) ∧
  (get d "date" = PNone →
   ∃ fields, normalize rt w d n = (Raise (ValidationError fields), n) ∧
     "date" ∈ fields).
Proof.
  split; [|apply normalize_no_date_raises].
  intros H.
  destruct (normalize_fits_returns rt w d n H) as (g & n' & Hg).
  exists g, n'. split; [done|].
  unfold fits_gig in H. repeat (apply andb_true_iff in H as [H ?]).
  destruct (timestamp_coerce_date rt w d n) as (x & m & Hx); [done|].
  destruct (normalize_Ok_date rt w d n n' m g x Hg Hx) as [<- <-].
  rewrite normalize_run, Hx in Hg. injection Hg as Hg.
  apply Gig_init_Ok_inv in Hg as (? & ? & ? & _ & ? & [= ->]).
  done.
Qed.

(** The amended C1 at a document that has only a title and a date, and at
    one whose date is null. *)
Lemma normalize_fits_gig_sparse :
  (∃ g n', normalize python_basic world_clean gig_sparse 0%nat = (Ok g, n') ∧
     get_or gig_sparse "title" (PStr "") = PStr (title g) ∧
     get_or gig_sparse "venue" (PStr "") = PStr (venue g) ∧
     get_or gig_sparse "city" (PStr "") = PStr (city g) ∧
     coerce_date python_basic world_clean (get gig_sparse "date") 0%nat =
       (Ok (PDatetime (date g)), n') ∧
     get gig_sparse "ticket_url" =
       match ticket_url g with Some s => PStr s | None => PNone end ∧
     is_confirmed g = py_bool (get_or gig_sparse "is_confirmed" (PBool true))) ∧
  (∃ fields,
     normalize python_lenient world_clean (<["date" := PNone]> gig_sparse) 0%nat
       = (Raise (ValidationError fields), 0%nat) ∧
     "date" ∈ fields).
Proof.
  split.
  - apply (proj1 (normalize_fits_gig python_basic world_clean gig_sparse 0%nat)).
    vm_compute. reflexivity.
  - apply (proj2 (normalize_fits_gig python_lenient world_clean
                    (<["date" := PNone]> gig_sparse) 0%nat)).
    reflexivity.
Defined.

(** What becomes of a date that is a number is the schema library's matter:
    one sample runtime refuses it, the other dates the [Gig] 1 January
    1970. *)
Example normalize_number_date :
  normalize python_basic world_clean gig_epoch 0%nat
    = (Raise (ValidationError ["date"]), 0%nat) ∧
  normalize python_lenient world_clean gig_epoch 0%nat
    = (Ok (mk_Gig "Archive" "" "" (mk_datetime 1970 1 1 0 0 0 0 (Some 0))
             None true), 0%nat).
Proof. split; reflexivity. Qed.

(** *** C2: the date of a normalised document *)



(** *** C4: the text fields *)

(** C4: [title], [venue] and [city] are the empty string when the key is
    absent and the stored value when it is present; the [Gig] returned
    carries these values, an absent text field is never among the fields
    that make the construction of the [Gig] fail, and a [Gig] is returned
    for every document whose values fit the schema. *)
Theorem text_fields_default
    (rt : Runtime) (w : World) (d : Doc) (n : nat) :
  (∀ key, d !! key = None → get_or d key (PStr "") = PStr "") ∧
  (∀ key v, d !! key = Some v → get_or d key (PStr "") = v) ∧
  (∀ g n', normalize rt w d n = (Ok g, n') →
     PStr (title g) = get_or d "title" (PStr "") ∧
     PStr (venue g) = get_or d "venue" (PStr "") ∧
     PStr (city g) = get_or d "city" (PStr "")) ∧
  (∀ key fields n', key ∈ ["title"; "venue"; "city"] → d !! key = None →
     normalize rt w d n = (Raise (ValidationError fields), n') → key ∉ fields) ∧
  (fits_gig d = true → ∃ g n', normalize rt w d n = (Ok g, n')).
Proof.
  split; [|split; [|split; [|split]]]; [| | | |apply normalize_fits_returns].
  - intros key Hk. unfold get_or. by rewrite Hk.
  - intros key v Hk. unfold get_or. by rewrite Hk.
  - intros g n'. rewrite normalize_run.
    destruct (coerce_date rt w (get d "date") n) as [[v|e] m]; [|discriminate].
    intros [= Hg <-].
    by apply Gig_init_Ok_inv in Hg as (-> & -> & -> & _).
  - intros key fields n' Hkey Hk Hrun Hin.
    destruct (normalize_Raise_field rt w d n n' fields key Hrun Hin)
      as [[-> H]|[[-> H]|[[-> H]|[[-> _]|[-> _]]]]];
      try (unfold get_or in H; rewrite Hk in H; discriminate H);
      repeat (apply elem_of_cons in Hkey as [?|Hkey]; [discriminate|]);
      by apply elem_of_nil in Hkey.
Qed.

(** C4 at a document that stores a title and no venue or city. *)
Lemma text_fields_default_sparse :
  ∃ g, fst (normalize python_basic world_clean gig_sparse 0%nat) = Ok g ∧
    PStr (title g) = PStr "Open Air" ∧
    PStr (venue g) = PStr "" ∧
    PStr (city g) = PStr "".
Proof.
  eexists. split; [reflexivity|].
  pose proof (text_fields_default python_basic world_clean gig_sparse 0%nat)
    as (Habsent & Hstored & Hgig & _ & _).
  specialize (Hgig _ _ eq_refl) as (Ht & Hv & Hc).
  rewrite (Hstored "title" (PStr "Open Air") eq_refl) in Ht.
  rewrite (Habsent "venue" eq_refl) in Hv.
  rewrite (Habsent "city" eq_refl) in Hc.
  exact (conj Ht (conj Hv Hc)).
Defined.

(** *** C5: the confirmation flag *)

(** C5: [is_confirmed] is the truth value of the stored value when the key
    is present and true when it is absent; 0 gives false, and there is no
    parsing of booleans (the string ["false"] is not empty, hence true).
    The [Gig] returned carries that flag, the flag is never among the
    fields that make the construction of the [Gig] fail, and a [Gig] is
    returned for every document whose values fit the schema. *)
Theorem is_confirmed_truthiness
    (rt : Runtime) (w : World) (d : Doc) (n : nat) :
  (∀ v, d !! "is_confirmed" = Some v →
     py_bool (get_or d "is_confirmed" (PBool true)) = py_bool v) ∧
  (d !! "is_confirmed" = None →
     py_bool (get_or d "is_confirmed" (PBool true)) = true) ∧
  py_bool (PInt 0) = false ∧
  py_bool (PStr "false") = true ∧
  (∀ g n', normalize rt w d n = (Ok g, n') →
     is_confirmed g = py_bool (get_or d "is_confirmed" (PBool true))) ∧
  (∀ fields n', normalize rt w d n = (Raise (ValidationError fields), n') →
     "is_confirmed" ∉ fields) ∧
  (fits_gig d = true → ∃ g n', normalize rt w d n = (Ok g, n')).
Proof.
  split; [|split; [|split; [|split; [|split; [|split]]]]];
    [| |reflexivity|reflexivity| | |apply normalize_fits_returns].
  - intros v Hk. unfold get_or. by rewrite Hk.
  - intros Hk. unfold get_or. by rewrite Hk.
  - intros g n'. rewrite normalize_run.
    destruct (coerce_date rt w (get d "date") n) as [[v|e] m]; [|discriminate].
    intros [= Hg <-].
    by apply Gig_init_Ok_inv in Hg as (_ & _ & _ & _ & _ & [= ->]).
  - intros fields n' Hrun Hin.
    destruct (normalize_Raise_field rt w d n n' fields _ Hrun Hin)
      as [[? _]|[[? _]|[[? _]|[[? _]|[? _]]]]]; discriminate.
Qed.

(** C5 at a document that stores 0, one that stores the string ["false"],
    and one without the key. *)
Lemma is_confirmed_truthiness_samples :
  (∃ g, fst (normalize python_basic world_clean gig_june 0%nat) = Ok g ∧
        is_confirmed g = false) ∧
  (∃ g, fst (normalize python_basic world_clean gig_bad_date 0%nat) = Ok g ∧
        is_confirmed g = true) ∧
  (∃ g, fst (normalize python_basic world_clean gig_sparse 0%nat) = Ok g ∧
        is_confirmed g = true).
Proof.
  split; [|split]; (eexists; split; [reflexivity|]).
  - pose proof (is_confirmed_truthiness python_basic world_clean gig_june 0%nat)
      as (Hstored & _ & Hzero & _ & Hgig & _ & _).
    rewrite (Hgig _ _ eq_refl), (Hstored (PInt 0) eq_refl). exact Hzero.
  - pose proof (is_confirmed_truthiness python_basic world_clean gig_bad_date 0%nat)
      as (Hstored & _ & _ & Hfalse & Hgig & _ & _).
    rewrite (Hgig _ _ eq_refl), (Hstored (PStr "false") eq_refl). exact Hfalse.
  - pose proof (is_confirmed_truthiness python_basic world_clean gig_sparse 0%nat)
      as (_ & Habsent & _ & _ & Hgig & _ & _).
    rewrite (Hgig _ _ eq_refl). exact (Habsent eq_refl).
Defined.

(** *** The loop of [list_gigs] *)

Section ListGigs.
Variable rt : Runtime.
Variable w : World.

(** Whether a document makes [normalize] raise, and with which error, does
    not depend on when it is normalised. *)
Lemma normalize_Raise_any_time (d : Doc) (m m' n : nat) (e : exn) :
  normalize rt w d m = (Raise e, m') → ∃ n', normalize rt w d n = (Raise e, n').
Proof.
  rewrite !normalize_run, !coerce_date_run.
  destruct (get d "date") as [| | | |s| | | |];
    try (intros [= He _]; rewrite He; eauto; fail).
  destruct (fromisoformat rt s) as [t|_].
  - intros [= He _]. rewrite He. eauto.
  - intros [= He _]. rewrite (Gig_init_Raise_any_date _ _ _ _ _ _ _ _ _ He). eauto.
Qed.

(** One document that does not normalise makes the whole loop raise. *)
Lemma list_gigs_loop_Raise (docs : list Doc) (d : Doc) (m m' : nat) (e : exn) :
  d ∈ docs → normalize rt w d m = (Raise e, m') →
  ∀ gigs n, ∃ e' n', list_gigs_loop rt w docs gigs n = (Raise e', n').
Proof.
  intros Hin Hd. induction docs as [|d0 docs IH]; intros gigs n.
  - by apply elem_of_nil in Hin.
  - cbn [list_gigs_loop]. rewrite run_bind.
    destruct (normalize rt w d0 n) as [[g|e0] n0] eqn:Hd0; [|eauto].
    apply elem_of_cons in Hin as [->|Hin].
    + destruct (normalize_Raise_any_time _ _ _ n _ Hd) as [n' Hd'].
      congruence.
    + apply IH, Hin.
Qed.

(** [list_gigs] returns what the block under [try] returns, and the empty
    list when that block raises. *)
Lemma list_gigs_run (limit : Z) (n : nat) :
  list_gigs rt w limit n =
  match list_gigs_try rt w limit n with
  | (Ok gigs, n') => (Ok gigs, n')
  | (Raise _, n') => (Ok [], n')
  end.
Proof. reflexivity. Qed.

End ListGigs.

(** *** C3: [list_gigs] swallows every error *)

(** C3: for every limit and every behaviour of the store, [list_gigs]
    returns a list and never raises, so the response is never a 500; when
    the block that queries the store and normalises the documents raises
    (in particular when the query itself raises, as it does with no database
    configured) the list returned is empty. *)
Theorem list_gigs_never_raises
    (rt : Runtime) (w : World) (limit : Z) (n : nat) :
  (∃ gigs n', list_gigs rt w limit n = (Ok gigs, n')) ∧
  (∀ e n', list_gigs_try rt w limit n = (Raise e, n') →
     list_gigs rt w limit n = (Ok [], n')) ∧
  (∀ e, get_documents w "gig" ∅ limit = Raise e →
     list_gigs rt w limit n = (Ok [], n)) ∧
  response_status (fst (list_gigs rt w limit n)) = 200.
Proof.
  rewrite list_gigs_run. repeat split.
  - destruct (list_gigs_try rt w limit n) as [[gigs|e] n']; eauto.
  - by intros e n' ->.
  - intros e He. unfold list_gigs_try. rewrite run_bind. unfold lift.
    by rewrite He.
  - by destruct (list_gigs_try rt w limit n) as [[gigs|e] n'].
Qed.

(** C3 with no database configured: the query raises and the endpoint
    answers with an empty list. *)
Lemma list_gigs_world_down :
  list_gigs python_basic world_down 20 0%nat = (Ok [], 0%nat).
Proof.
  apply (proj1 (proj2 (proj2 (list_gigs_never_raises python_basic world_down 20 0%nat)))
           db_outage).
  reflexivity.
Defined.

(** *** C7: one failing record empties the batch *)

(** C7: when the store returns a batch in which one document makes the
    construction of its [Gig] raise, [list_gigs] returns the empty list,
    whatever the other documents of the batch are: the records that
    normalised before the failing one are dropped with it. *)
Theorem list_gigs_bad_record_empties_batch
    (rt : Runtime) (w : World) (limit : Z) (n : nat)
    (docs : list Doc) (d : Doc) (m m' : nat) (e : exn) :
  get_documents w "gig" ∅ limit = Ok docs →
  d ∈ docs →
  normalize rt w d m = (Raise e, m') →
  ∃ n', list_gigs rt w limit n = (Ok [], n').
Proof.
  intros Hdocs Hin Hd.
  rewrite list_gigs_run. unfold list_gigs_try. rewrite run_bind. unfold lift.
  rewrite Hdocs.
  destruct (list_gigs_loop_Raise rt w docs d m m' e Hin Hd [] n) as (e' & n' & ->).
  eauto.
Qed.

(** C7 at a batch of three documents of which the second has no date: the
    first and the third normalise on their own, and the batch comes back
    empty. *)
Lemma list_gigs_bad_record_mixed :
  (∃ g, fst (normalize python_basic world_mixed gig_june 0%nat) = Ok g) ∧
  (∃ g, fst (normalize python_basic world_mixed gig_sparse 0%nat) = Ok g) ∧
  (∃ n', list_gigs python_basic world_mixed 20 0%nat = (Ok [], n')).
Proof.
  split; [|split]; [eexists; reflexivity | eexists; reflexivity |].
  apply (list_gigs_bad_record_empties_batch python_basic world_mixed 20 0%nat
           [gig_june; gig_no_date; gig_sparse] gig_no_date 0%nat 0%nat
           (ValidationError ["date"])).
  - reflexivity.
  - apply list_elem_of_In. right. left. reflexivity.
  - reflexivity.
Defined.

(** *** C6: [submit_contact] *)

(** C6: [submit_contact] returns [{"status": "ok", "id": doc_id}] with the
    identifier that [create_document] returned exactly when that call
    succeeds; when it raises, [submit_contact] raises an [HTTPException]
    with status 500 whose detail is the text of the error, unchanged, and
    the response is a 500. *)
Theorem submit_contact_outcome (w : World) (message : Message w) :
  (∀ doc_id, create_document w "message" message = Ok doc_id →
     submit_contact w message = Ok {[ "status" := PStr "ok"; "id" := doc_id ]}) ∧
  (∀ e, create_document w "message" message = Raise e →
     submit_contact w message = Raise (mk_HTTPException 500 (str_exn e))) ∧
  (∀ r, submit_contact w message = Ok r →
     ∃ doc_id, create_document w "message" message = Ok doc_id ∧
       r !! "status" = Some (PStr "ok") ∧ r !! "id" = Some doc_id) ∧
  (∀ h, submit_contact w message = Raise h →
     ∃ e, create_document w "message" message = Raise e ∧
       status_code h = 500 ∧ detail h = str_exn e) ∧
  (response_status (submit_contact w message) = 500 ↔
     ∃ e, create_document w "message" message = Raise e).
Proof.
  unfold submit_contact.
  destruct (create_document w "message" message) as [doc_id|e]; repeat split.
  - by intros ? [= ->].
  - discriminate.
  - intros r [= <-]. exists doc_id. by simplify_map_eq.
  - discriminate.
  - discriminate.
  - by intros [? ?].
  - discriminate.
  - by intros ? [= ->].
  - discriminate.
  - intros h [= <-]. by exists e.
  - eauto.
Qed.

(** C6 at a healthy store and at one with no database configured. *)
Lemma submit_contact_samples :
  submit_contact world_clean "hello"
    = Ok {[ "status" := PStr "ok"; "id" := PStr "665f1c" ]} ∧
  submit_contact world_down "hello"
    = Raise (mk_HTTPException 500 "Database not available").
Proof.
  split.
  - apply (proj1 (submit_contact_outcome world_clean "hello")). reflexivity.
  - apply (proj1 (proj2 (submit_contact_outcome world_down "hello")) db_outage).
    reflexivity.
Defined.

(** *** The diagnostic report *)

Section Probe.
Variable w : World.

Lemma probe_never_raises (r0 : Doc) :
  ∃ r, test_database_probe w r0 = (Ok (), r).
Proof.
  unfold test_database_probe. rewrite run_try_except.
  destruct (test_database_try w r0) as [[[]|e] r]; [eauto|].
  destruct (is_ImportError e); unfold setitem; eauto.
Qed.

(** The report is what the probe left, with the two markers of the
    environment written over it. *)
Lemma test_database_run :
  test_database w =
  Ok (<["database_name" := set_marker w "DATABASE_NAME"]>
        (<["database_url" := set_marker w "DATABASE_URL"]>
           (snd (test_database_probe w response0)))).
Proof.
  unfold test_database, test_database_body.
  destruct (probe_never_raises response0) as [r Hr].
  rewrite !run_bind, Hr. reflexivity.
Qed.

Lemma hasattr_name_true (db : Db) :
  hasattr_name db = Ok true → ∃ v, getattr_name db = Ok v.
Proof.
  unfold hasattr_name. destruct (getattr_name db) as [v|e]; [eauto|].
  destruct (is_AttributeError e); discriminate.
Qed.

(** The module cannot be imported. *)
Lemma probe_import_fails (r0 : Doc) (e : exn) :
  import_db w = Raise e →
  snd (test_database_probe w r0) =
  <["database" :=
      if is_ImportError e
      then PStr "❌ Database module not found (run enable-database first)"
      else PStr ("❌ Error: " +:+ str_take 50 (str_exn e))]> r0.
Proof.
  intros H. run_probe. rewrite H. by destruct (is_ImportError e).
Qed.

(** The module is there and [db] is [None]. *)
Lemma probe_not_initialized (r0 : Doc) :
  import_db w = Ok None →
  snd (test_database_probe w r0) =
  <["database" := PStr "⚠️  Available but not initialized"]> r0.
Proof. intros H. run_probe. by rewrite H. Qed.

(** Reading [db.name] raises something other than an [AttributeError]. *)
Lemma probe_name_raises (r0 : Doc) (db : Db) (e : exn) :
  import_db w = Ok (Some db) → hasattr_name db = Raise e →
  snd (test_database_probe w r0) =
  <["database" :=
      if is_ImportError e
      then PStr "❌ Database module not found (run enable-database first)"
      else PStr ("❌ Error: " +:+ str_take 50 (str_exn e))]>
    (<["database_url" := PStr "✅ Configured"]>
       (<["database" := PStr "✅ Available"]> r0)).
Proof.
  intros H Hname. run_probe. rewrite H, Hname. by destruct (is_ImportError e).
Qed.

(** The name that line 80 stores. *)
Lemma probe_name (db : Db) (has : bool) :
  hasattr_name db = Ok has →
  ∃ name,
    (if has then getattr_name db else Ok (PStr "✅ Connected")) = Ok name.
Proof.
  destruct has; [|by exists (PStr "✅ Connected")].
  intros [v ->]%hasattr_name_true. by exists v.
Qed.

(** Connected, and the collections cannot be listed or sliced. *)
Lemma probe_listing_fails (r0 : Doc) (db : Db) (has : bool) (e : exn) :
  import_db w = Ok (Some db) → hasattr_name db = Ok has →
  first_collections db = Raise e →
  ∃ name,
    snd (test_database_probe w r0) =
    <["database" :=
        PStr ("⚠️  Connected but Error: " +:+ str_take 50 (str_exn e))]>
      (connected name r0).
Proof.
  intros H Hname Hlist.
  destruct (probe_name db has Hname) as [name Hn]. exists name.
  run_probe. rewrite H, Hname.
  destruct has; [rewrite Hn | injection Hn as <-]; cbv beta iota;
    revert Hlist; unfold first_collections, mbind, result_bind;
    (destruct (list_collection_names db) as [v|e']; [|by intros [= ->]]);
    by intros ->.
Qed.

(** Connected, and the collections are listed. *)
Lemma probe_listing_works (r0 : Doc) (db : Db) (has : bool) (first10 : PyVal) :
  import_db w = Ok (Some db) → hasattr_name db = Ok has →
  first_collections db = Ok first10 →
  ∃ name,
    snd (test_database_probe w r0) =
    <["database" := PStr "✅ Connected & Working"]>
      (<["collections" := first10]> (connected name r0)).
Proof.
  intros H Hname Hlist.
  destruct (probe_name db has Hname) as [name Hn]. exists name.
  run_probe. rewrite H, Hname.
  destruct has; [rewrite Hn | injection Hn as <-]; cbv beta iota;
    revert Hlist; unfold first_collections, mbind, result_bind;
    (destruct (list_collection_names db) as [v|e']; [|discriminate]);
    by intros ->.
Qed.

(** In every state the probe leaves a status string under ["database"]. *)
Lemma probe_status (r0 : Doc) :
  ∃ status, snd (test_database_probe w r0) !! "database" = Some (PStr status).
Proof.
  destruct (import_db w) as [[db|]|e] eqn:H.
  - destruct (hasattr_name db) as [has|e] eqn:Hname.
    + destruct (first_collections db) as [v|e] eqn:Hlist.
      * destruct (probe_listing_works r0 db has v H Hname Hlist) as [name ->].
        rewrite lookup_insert_eq. eauto.
      * destruct (probe_listing_fails r0 db has e H Hname Hlist) as [name ->].
        rewrite lookup_insert_eq. eauto.
    + rewrite (probe_name_raises r0 db e H Hname), lookup_insert_eq.
      destruct (is_ImportError e); eauto.
  - rewrite (probe_not_initialized r0 H), lookup_insert_eq. eauto.
  - rewrite (probe_import_fails r0 e H), lookup_insert_eq.
    destruct (is_ImportError e); eauto.
Qed.

(** The probe looks at the world only through [from database import db]. *)
Lemma probe_depends_on_import (w' : World) :
  import_db w = import_db w' →
  test_database_probe w = test_database_probe w'.
Proof.
  intros H. unfold test_database_probe, test_database_try. by rewrite H.
Qed.

End Probe.

(** *** C8: [test_database] never fails *)

(** C8: whatever the state of the database module, of the client handle and
    of the store, [test_database] returns a report and raises nothing, and
    the report holds a status string under ["database"]: one for a module
    that cannot be imported, one for any other error, one for a client that
    is not initialised, one for a working connection, and one for a
    connection on which listing the collections raised. *)
Theorem test_database_never_fails (w : World) :
  ∃ r, test_database w = Ok r ∧
    (∃ status, r !! "database" = Some (PStr status)) ∧
    (∀ e, import_db w = Raise e → is_ImportError e = true →
       r !! "database" =
         Some (PStr "❌ Database module not found (run enable-database first)")) ∧
    (∀ e, import_db w = Raise e → is_ImportError e = false →
       r !! "database" = Some (PStr ("❌ Error: " +:+ str_take 50 (str_exn e)))) ∧
    (import_db w = Ok None →
       r !! "database" = Some (PStr "⚠️  Available but not initialized") ∧
       r !! "connection_status" = Some (PStr "Not Connected")) ∧
    (∀ db has first10,
       import_db w = Ok (Some db) → hasattr_name db = Ok has →
       first_collections db = Ok first10 →
       r !! "database" = Some (PStr "✅ Connected & Working") ∧
       r !! "connection_status" = Some (PStr "Connected")) ∧
    (∀ db has e,
       import_db w = Ok (Some db) → hasattr_name db = Ok has →
       first_collections db = Raise e →
       r !! "database" =
         Some (PStr ("⚠️  Connected but Error: " +:+ str_take 50 (str_exn e))) ∧
       r !! "connection_status" = Some (PStr "Connected")).
Proof.
  eexists. split; [apply test_database_run|].
  rewrite !(lookup_insert_ne _ "database_name"), !(lookup_insert_ne _ "database_url")
    by done.
  split; [apply probe_status|]. repeat split.
  - intros e H He. rewrite (probe_import_fails w _ e H), He.
    apply lookup_insert_eq.
  - intros e H He. rewrite (probe_import_fails w _ e H), He.
    apply lookup_insert_eq.
  - rewrite (probe_not_initialized w _ H). apply lookup_insert_eq.
  - by rewrite (probe_not_initialized w _ H), lookup_insert_ne.
  - destruct (probe_listing_works w response0 db has first10) as [name ->];
      [done..|]. apply lookup_insert_eq.
  - destruct (probe_listing_works w response0 db has first10) as [name ->];
      [done..|]. unfold connected.
    rewrite !lookup_insert_ne by done. apply lookup_insert_eq.
  - destruct (probe_listing_fails w response0 db has e) as [name ->];
      [done..|]. apply lookup_insert_eq.
  - destruct (probe_listing_fails w response0 db has e) as [name ->];
      [done..|]. unfold connected.
    rewrite !lookup_insert_ne by done. apply lookup_insert_eq.
Qed.

(** C8 with no database configured, where the report says the client is
    not initialised, and with a server that does not answer, where it says
    the connection is there and gives the error. *)
Lemma test_database_samples :
  report_field world_down "database"
    = Some (PStr "⚠️  Available but not initialized") ∧
  report_field world_down "connection_status" = Some (PStr "Not Connected") ∧
  report_field world_flaky "database"
    = Some (PStr "⚠️  Connected but Error: timed out") ∧
  report_field world_flaky "connection_status" = Some (PStr "Connected").
Proof.
  unfold report_field.
  destruct (test_database_never_fails world_down)
    as (r & -> & _ & _ & _ & Hnone & _).
  destruct (test_database_never_fails world_flaky)
    as (r' & -> & _ & _ & _ & _ & _ & Hfails).
  destruct (Hnone eq_refl) as [Hdb Hconn].
  destruct (Hfails db_listing_fails true _ eq_refl eq_refl eq_refl)
    as [Hdb' Hconn'].
  exact (conj Hdb (conj Hconn (conj Hdb' Hconn'))).
Defined.

(** *** C9: the environment in the report *)

Lemma set_marker_nonempty (w : World) (key : string) :
  set_marker w key =
  PStr (if env_nonempty w key then "✅ Set" else "❌ Not Set").
Proof.
  unfold set_marker, getenv, env_nonempty.
  destruct (environ w !! key) as [v|]; [|reflexivity].
  cbn. by destruct (String.eqb v "").
Qed.

(** C9 (the claim as stated fails): two environments in which both
    variables are set, which differ only in the value of [DATABASE_URL],
    give different [database_url] fields, because a variable set to the
    empty string counts as not set. *)
Lemma env_value_changes_report :
  env_blank_url !! "DATABASE_URL" = Some "" ∧
  env_local !! "DATABASE_URL" = Some "mongodb://localhost:27017" ∧
  env_blank_url !! "DATABASE_NAME" = env_local !! "DATABASE_NAME" ∧
  report_field (world_with [] env_blank_url) "database_url"
    = Some (PStr "❌ Not Set") ∧
  report_field (world_with [] env_local) "database_url"
    = Some (PStr "✅ Set").
Proof. repeat split; vm_compute; reflexivity. Qed.

(** C9 (as amended): the [database_url] and [database_name] fields of the
    report are the set marker when the variable is set to a value that is
    not empty and the not-set marker otherwise.  Two runs that agree, for
    each variable, on whether it is set to a non-empty value give the same
    two fields, and the same report altogether when the database module
    behaves the same; the values themselves are not in the report. *)
Theorem env_markers (w1 w2 : World) :
  env_nonempty w1 "DATABASE_URL" = env_nonempty w2 "DATABASE_URL" →
  env_nonempty w1 "DATABASE_NAME" = env_nonempty w2 "DATABASE_NAME" →
  report_field w1 "database_url" =
    Some (PStr (if env_nonempty w1 "DATABASE_URL"
                then "✅ Set" else "❌ Not Set")) ∧
  report_field w1 "database_name" =
    Some (PStr (if env_nonempty w1 "DATABASE_NAME"
                then "✅ Set" else "❌ Not Set")) ∧
  report_field w1 "database_url" = report_field w2 "database_url" ∧
  report_field w1 "database_name" = report_field w2 "database_name" ∧
  (import_db w1 = import_db w2 → test_database w1 = test_database w2).
Proof.
  intros Hurl Hname. unfold report_field.
  rewrite !test_database_run, !set_marker_nonempty, <- Hurl, <- Hname.
  rewrite !lookup_insert_eq, !(lookup_insert_ne _ "database_name") by done.
  rewrite !lookup_insert_eq. repeat split.
  intros Himp. by rewrite (probe_depends_on_import w1 w2 Himp).
Qed.

(** C9 (as amended) at two environments with different, non-empty values. *)
Lemma env_markers_local_remote :
  report_field (world_with [] env_local) "database_url" = Some (PStr "✅ Set") ∧
  report_field (world_with [] env_local) "database_name" = Some (PStr "✅ Set") ∧
  test_database (world_with [] env_local) = test_database (world_with [] env_remote).
Proof.
  destruct (env_markers (world_with [] env_local) (world_with [] env_remote))
    as (Hurl & Hname & _ & _ & Hsame); [reflexivity..|].
  exact (conj Hurl (conj Hname (Hsame eq_refl))).
Defined.

(** *** C10: the collections in the report *)

(** C10: when the collections are listed, the report holds under
    ["collections"] the first ten names the store returned, in the order it
    returned them: at most ten, and exactly ten when the store returned
    more. *)
Theorem collections_first_ten
    (w : World) (db : Db) (has : bool) (names : list PyVal) :
  import_db w = Ok (Some db) →
  hasattr_name db = Ok has →
  list_collection_names db = Ok (PList names) →
  report_field w "collections" = Some (PList (take 10 names)) ∧
  (length (take 10 names) ≤ 10)%nat ∧
  (∀ i, (i < 10)%nat → take 10 names !! i = names !! i) ∧
  ((10 < length names)%nat → length (take 10 names) = 10%nat).
Proof.
  intros H Hname Hlist. split; [|split; [|split]].
  - unfold report_field. rewrite test_database_run.
    destruct (probe_listing_works w response0 db has (PList (take 10 names)))
      as [name ->]; [done..| |].
    { unfold first_collections. by rewrite Hlist. }
    rewrite !lookup_insert_ne by done. apply lookup_insert_eq.
  - rewrite length_take. lia.
  - intros i Hi. by apply lookup_take_lt.
  - intros Hlen. rewrite length_take. lia.
Qed.

(** C10 at a store with twelve collections. *)
Lemma collections_first_ten_of_twelve :
  report_field world_clean "collections"
    = Some (PList (PStr <$> ["a"; "b"; "c"; "d"; "e"; "f"; "g"; "h"; "i"; "j"])) ∧
  length twelve_names = 12%nat.
Proof.
  split; [|reflexivity].
  apply (collections_first_ten world_clean db_live true twelve_names);
    reflexivity.
Defined.

(** ** Further properties of the endpoints *)

(** *** The batch that [list_gigs] returns *)

Section Batches.
Variable rt : Runtime.
Variable w : World.

(** [normalize] reads the clock once when the date is a string that does
    not parse, and not at all otherwise, whether or not a [Gig] comes out. *)
Lemma normalize_clock (d : Doc) (n : nat) :
  snd (normalize rt w d n) = (n + (if unparseable_date rt d then 1 else 0))%nat.
Proof.
  rewrite normalize_run, coerce_date_run. unfold get, unparseable_date.
  destruct (d !! "date") as [[| | | |s| | | |]|]; cbn; try lia.
  destruct (fromisoformat rt s); cbn; lia.
Qed.

Lemma clock_reads_cons (d : Doc) (docs : list Doc) :
  clock_reads rt (d :: docs)
  = ((if unparseable_date rt d then 1 else 0) + clock_reads rt docs)%nat.
Proof. unfold clock_reads. cbn. by destruct (unparseable_date rt d). Qed.

(** The fallback date is the reading taken when the document is reached. *)
Lemma normalize_fallback_date (d : Doc) (n n' : nat) (g : Gig) :
  unparseable_date rt d = true → normalize rt w d n = (Ok g, n') →
  date g = clock w n.
Proof.
  unfold unparseable_date. rewrite normalize_run, coerce_date_run. unfold get.
  destruct (d !! "date") as [[| | | |s| | | |]|]; try discriminate.
  cbn. destruct (fromisoformat rt s); [discriminate|]. intros _ [= Hg _].
  by apply Gig_init_Ok_inv in Hg as (_ & _ & _ & [= ->] & _).
Qed.

(** The loop over a batch whose documents all fit the schema. *)
Lemma list_gigs_loop_fits (docs : list Doc) :
  Forall (λ d, fits_gig d = true) docs →
  ∀ gigs0 n, ∃ gigs,
    list_gigs_loop rt w docs gigs0 n = (Ok (gigs0 ++ gigs), (n + clock_reads rt docs)%nat) ∧
    length gigs = length docs ∧
    ∀ i d, docs !! i = Some d →
      ∃ g, gigs !! i = Some g ∧
        normalize rt w d (n + clock_reads rt (take i docs))%nat
        = (Ok g, (n + clock_reads rt (take (S i) docs))%nat).
Proof.
  induction 1 as [|d docs Hd _ IH]; intros gigs0 n.
  - exists []. rewrite app_nil_r. unfold clock_reads. cbn.
    rewrite Nat.add_0_r. by repeat split.
  - destruct (normalize_fits_returns rt w d n Hd) as (g & n1 & Hg).
    pose proof (normalize_clock d n) as Hn1. rewrite Hg in Hn1. cbn in Hn1.
    destruct (IH (gigs0 ++ [g]) n1) as (gigs & Hloop & Hlen & Hnth).
    exists (g :: gigs). split; [|split].
    + cbn [list_gigs_loop]. rewrite run_bind, Hg, Hloop, <- app_assoc.
      rewrite clock_reads_cons. f_equal; first [done|lia].
    + cbn. by rewrite Hlen.
    + intros [|i] d' Hi.
      * injection Hi as <-. exists g. split; [done|].
        cbn [take]. rewrite clock_reads_cons.
        unfold clock_reads at 1 2. cbn. rewrite !Nat.add_0_r, Hg.
        by rewrite Hn1.
      * destruct (Hnth i d' Hi) as (g' & Hg' & Hrun). exists g'.
        split; [done|]. cbn [take]. rewrite !clock_reads_cons.
        replace (n + _)%nat with (n1 + clock_reads rt (take i docs))%nat by lia.
        rewrite Hrun. f_equal; first [done|lia].
Qed.

(** The loop never reads the clock more often than there are dates that do
    not parse, and never turns it back. *)
Lemma list_gigs_loop_clock (docs : list Doc) (gigs0 : list Gig) (n : nat) :
  (n ≤ snd (list_gigs_loop rt w docs gigs0 n) ≤ n + clock_reads rt docs)%nat.
Proof.
  revert gigs0 n. induction docs as [|d docs IH]; intros gigs0 n.
  - cbn. lia.
  - cbn [list_gigs_loop]. rewrite run_bind, clock_reads_cons.
    pose proof (normalize_clock d n) as Hn1.
    destruct (normalize rt w d n) as [[g|e] n1]; cbn in Hn1 |- *; [|lia].
    specialize (IH (gigs0 ++ [g]) n1). lia.
Qed.

End Batches.

(** [list_gigs] on a batch that the store returned. *)
Lemma list_gigs_of_batch
    (rt : Runtime) (w : World) (limit : Z) (n : nat) (docs : list Doc) :
  get_documents w "gig" ∅ limit = Ok docs →
  list_gigs rt w limit n =
  match list_gigs_loop rt w docs [] n with
  | (Ok gigs, n') => (Ok gigs, n')
  | (Raise _, n') => (Ok [], n')
  end.
Proof.
  intros Hdocs. rewrite list_gigs_run. unfold list_gigs_try.
  rewrite run_bind. unfold lift. by rewrite Hdocs.
Qed.

(** X1: when every document the store returns fits the schema, [list_gigs]
    returns one [Gig] per document, in the order of the store: the [Gig] at
    each position is a normalisation of the document at that position. *)
Theorem list_gigs_one_gig_per_document
    (rt : Runtime) (w : World) (limit : Z) (n : nat) (docs : list Doc) :
  get_documents w "gig" ∅ limit = Ok docs →
  Forall (λ d, fits_gig d = true) docs →
  ∃ gigs, fst (list_gigs rt w limit n) = Ok gigs ∧
    length gigs = length docs ∧
    ∀ i d, docs !! i = Some d →
      ∃ g m, gigs !! i = Some g ∧ fst (normalize rt w d m) = Ok g.
Proof.
  intros Hdocs Hfit. rewrite (list_gigs_of_batch rt w limit n docs Hdocs).
  destruct (list_gigs_loop_fits rt w docs Hfit [] n) as (gigs & -> & Hlen & Hnth).
  exists gigs. repeat split; [done|].
  intros i d Hi. destruct (Hnth i d Hi) as (g & Hg & Hrun).
  exists g, (n + clock_reads rt (take i docs))%nat. by rewrite Hrun.
Qed.

(** X1 at a store with three documents, one of them with a date that does
    not parse. *)
Lemma list_gigs_one_gig_per_document_clean :
  ∃ gigs, fst (list_gigs python_basic world_clean 20 0%nat) = Ok gigs ∧
    length gigs = 3%nat ∧
    ∀ i d, [gig_june; gig_bad_date; gig_sparse] !! i = Some d →
      ∃ g m, gigs !! i = Some g ∧ fst (normalize python_basic world_clean d m) = Ok g.
Proof.
  apply (list_gigs_one_gig_per_document python_basic world_clean 20 0%nat
           [gig_june; gig_bad_date; gig_sparse]).
  - reflexivity.
  - repeat constructor.
Defined.

(** X2: while it handles a batch, [list_gigs] reads the clock at most once
    for each document whose date is a string that the runtime's
    [fromisoformat] refuses, and never for another reason; when every
    document fits the schema it reads it exactly once for each of them. *)
Theorem list_gigs_clock_reads
    (rt : Runtime) (w : World) (limit : Z) (n : nat) (docs : list Doc) :
  get_documents w "gig" ∅ limit = Ok docs →
  (n ≤ snd (list_gigs rt w limit n) ≤ n + clock_reads rt docs)%nat ∧
  (Forall (λ d, fits_gig d = true) docs →
   snd (list_gigs rt w limit n) = (n + clock_reads rt docs)%nat).
Proof.
  intros Hdocs. rewrite (list_gigs_of_batch rt w limit n docs Hdocs). split.
  - pose proof (list_gigs_loop_clock rt w docs [] n) as Hclock.
    by destruct (list_gigs_loop rt w docs [] n) as [[gigs|e] n'].
  - intros Hfit.
    by destruct (list_gigs_loop_fits rt w docs Hfit [] n) as (gigs & -> & _).
Qed.

(** X2 at a batch in which two of three dates do not parse, at one that
    stops at its second document, and at a batch whose first date has a
    trailing [Z]: one reading with the runtime that parses it, two with the
    runtime that does not. *)
Lemma list_gigs_clock_reads_samples :
  snd (list_gigs python_basic world_two_bad 20 5%nat) = 7%nat ∧
  (0 ≤ snd (list_gigs python_basic world_mixed 20 0%nat) ≤ 0)%nat ∧
  snd (list_gigs python_lenient world_utc 20 0%nat) = 1%nat ∧
  snd (list_gigs python_basic world_utc 20 0%nat) = 2%nat.
Proof.
  split; [|split; [|split]].
  - apply (proj2 (list_gigs_clock_reads python_basic world_two_bad 20 5%nat
                    [gig_bad_date; gig_june; gig_bad_date] eq_refl)).
    repeat constructor.
  - apply (proj1 (list_gigs_clock_reads python_basic world_mixed 20 0%nat
                    [gig_june; gig_no_date; gig_sparse] eq_refl)).
  - apply (proj2 (list_gigs_clock_reads python_lenient world_utc 20 0%nat
                    [gig_june_utc; gig_bad_date] eq_refl)).
    repeat constructor.
  - apply (proj2 (list_gigs_clock_reads python_basic world_utc 20 0%nat
                    [gig_june_utc; gig_bad_date] eq_refl)).
    repeat constructor.
Defined.

(** X3: in a batch whose documents all fit the schema, a document whose
    date is a string that the runtime's [fromisoformat] refuses gets the
    reading of the clock taken when the loop reaches it, so the fallback
    dates of one response are successive readings, in the order of the
    documents. *)
Theorem list_gigs_fallback_dates
    (rt : Runtime) (w : World) (limit : Z) (n : nat) (docs : list Doc) :
  get_documents w "gig" ∅ limit = Ok docs →
  Forall (λ d, fits_gig d = true) docs →
  ∃ gigs, fst (list_gigs rt w limit n) = Ok gigs ∧
    ∀ i d, docs !! i = Some d → unparseable_date rt d = true →
      ∃ g, gigs !! i = Some g ∧
        date g = clock w (n + clock_reads rt (take i docs))%nat.
Proof.
  intros Hdocs Hfit. rewrite (list_gigs_of_batch rt w limit n docs Hdocs).
  destruct (list_gigs_loop_fits rt w docs Hfit [] n) as (gigs & -> & _ & Hnth).
  exists gigs. split; [done|].
  intros i d Hi Hbad. destruct (Hnth i d Hi) as (g & Hg & Hrun).
  exists g. split; [done|]. by apply (normalize_fallback_date rt w d _ _ g Hbad Hrun).
Qed.

(** X3 at a batch whose first and third dates do not parse: they get the
    first and the second reading; and at a batch whose first date has a
    trailing [Z], with the runtime that parses it: the second document gets
    the first reading. *)
Lemma list_gigs_fallback_dates_two_bad :
  (∃ gigs, fst (list_gigs python_basic world_two_bad 20 0%nat) = Ok gigs ∧
     (∃ g, gigs !! 0%nat = Some g ∧ date g = ticking 0) ∧
     (∃ g, gigs !! 2%nat = Some g ∧ date g = ticking 1)) ∧
  (∃ gigs, fst (list_gigs python_lenient world_utc 20 0%nat) = Ok gigs ∧
     (∃ g, gigs !! 1%nat = Some g ∧ date g = ticking 0)).
Proof.
  split.
  - destruct (list_gigs_fallback_dates python_basic world_two_bad 20 0%nat
                [gig_bad_date; gig_june; gig_bad_date] eq_refl)
      as (gigs & Hgigs & Hdate); [repeat constructor|].
    exists gigs. split; [exact Hgigs|]. split.
    + exact (Hdate 0%nat gig_bad_date eq_refl eq_refl).
    + exact (Hdate 2%nat gig_bad_date eq_refl eq_refl).
  - destruct (list_gigs_fallback_dates python_lenient world_utc 20 0%nat
                [gig_june_utc; gig_bad_date] eq_refl)
      as (gigs & Hgigs & Hdate); [repeat constructor|].
    exists gigs. split; [exact Hgigs|].
    exact (Hdate 1%nat gig_bad_date eq_refl eq_refl).
Defined.

(** *** What a document contributes to its [Gig] *)

(** X4: normalisation reads six keys of a document and nothing else: two
    documents that agree on [date], [title], [venue], [city], [ticket_url]
    and [is_confirmed] give the same result at the same moment, whatever
    else they store (an [_id], for one). *)
Theorem normalize_reads_six_keys
    (rt : Runtime) (w : World) (d1 d2 : Doc) (n : nat) :
  (∀ key, key ∈ gig_keys → d1 !! key = d2 !! key) →
  normalize rt w d1 n = normalize rt w d2 n.
Proof.
  intros H. rewrite !normalize_run. unfold get, get_or.
  rewrite (H "date"), (H "title"), (H "venue"), (H "city"),
    (H "ticket_url"), (H "is_confirmed")
    by (unfold gig_keys; set_solver).
  reflexivity.
Qed.

(** X4 at a document as stored, with its [_id] and a field of its own. *)
Lemma normalize_reads_six_keys_stored :
  gig_june_stored !! "_id" = Some (PObjectId "665f1c0a") ∧
  normalize python_basic world_clean gig_june_stored 0%nat
    = normalize python_basic world_clean gig_june 0%nat.
Proof.
  split; [reflexivity|].
  apply (normalize_reads_six_keys python_basic world_clean gig_june_stored gig_june 0%nat).
  intros key Hkey. unfold gig_keys in Hkey.
  repeat (apply elem_of_cons in Hkey as [->|Hkey]; [reflexivity|]).
  by apply elem_of_nil in Hkey.
Defined.

(** X5: a stored value equal to the default cannot be told from an absent
    key: an empty [title], [venue] or [city], a null [ticket_url] and a true
    [is_confirmed] give the same result as a document without the key, and
    two stored values of [is_confirmed] with the same truth value give the
    same result. *)
Theorem normalize_defaults_indistinguishable
    (rt : Runtime) (w : World) (d : Doc) (n : nat) :
  normalize rt w (<["title" := PStr ""]> d) n = normalize rt w (delete "title" d) n ∧
  normalize rt w (<["venue" := PStr ""]> d) n = normalize rt w (delete "venue" d) n ∧
  normalize rt w (<["city" := PStr ""]> d) n = normalize rt w (delete "city" d) n ∧
  normalize rt w (<["ticket_url" := PNone]> d) n
    = normalize rt w (delete "ticket_url" d) n ∧
  (∀ v, py_bool v = true →
     normalize rt w (<["is_confirmed" := v]> d) n
     = normalize rt w (delete "is_confirmed" d) n) ∧
  (∀ v v', py_bool v = py_bool v' →
     normalize rt w (<["is_confirmed" := v]> d) n
     = normalize rt w (<["is_confirmed" := v']> d) n).
Proof.
  repeat split; intros; rewrite !normalize_run; unfold get, get_or;
    rewrite ?lookup_insert_eq, ?lookup_delete_eq;
    rewrite ?lookup_insert_ne, ?lookup_delete_ne by done;
    simpl;
    try match goal with Hv : py_bool _ = _ |- _ => rewrite Hv end;
    reflexivity.
Qed.

(** X5 at a document that stores 1 for [is_confirmed]. *)
Lemma normalize_defaults_indistinguishable_one :
  normalize python_basic world_clean (<["is_confirmed" := PInt 1]> gig_sparse) 0%nat
  = normalize python_basic world_clean (delete "is_confirmed" gig_sparse) 0%nat.
Proof.
  apply (proj1 (proj2 (proj2 (proj2 (proj2
           (normalize_defaults_indistinguishable python_basic world_clean gig_sparse 0%nat)))))
           (PInt 1)).
  reflexivity.
Defined.

(** X6: a date stored as a string that parses gives the same result as the
    parsed timestamp stored in its place. *)
Theorem normalize_iso_string_as_timestamp
    (rt : Runtime) (w : World) (d : Doc) (n : nat) (s : string) (t : datetime) :
  fromisoformat rt s = Ok t →
  normalize rt w (<["date" := PStr s]> d) n
  = normalize rt w (<["date" := PDatetime t]> d) n.
Proof.
  intros Hs. rewrite !normalize_run, !coerce_date_run. unfold get, get_or.
  rewrite !lookup_insert_eq. rewrite !lookup_insert_ne by done.
  cbn [default from_option id]. by rewrite Hs.
Qed.

(** X6 at the string of 1 June 2024, 20:00:00. *)
Lemma normalize_iso_string_as_timestamp_june :
  normalize python_basic world_clean (<["date" := PStr "2024-06-01T20:00:00"]> gig_sparse) 0%nat
  = normalize python_basic world_clean (<["date" := PDatetime june_first]> gig_sparse) 0%nat.
Proof.
  apply (normalize_iso_string_as_timestamp python_basic world_clean gig_sparse 0%nat
           "2024-06-01T20:00:00" june_first).
  reflexivity.
Defined.

(** *** The report of [test_database], state by state *)

(** The five ways through the probe, with what each leaves in [response]. *)
Lemma probe_cases (w : World) (r0 : Doc) :
  (∃ e, import_db w = Raise e ∧
     snd (test_database_probe w r0) =
     <["database" :=
         if is_ImportError e
         then PStr "❌ Database module not found (run enable-database first)"
         else PStr ("❌ Error: " +:+ str_take 50 (str_exn e))]> r0) ∨
  (import_db w = Ok None ∧
     snd (test_database_probe w r0) =
     <["database" := PStr "⚠️  Available but not initialized"]> r0) ∨
  (∃ db e, import_db w = Ok (Some db) ∧ hasattr_name db = Raise e ∧
     snd (test_database_probe w r0) =
     <["database" :=
         if is_ImportError e
         then PStr "❌ Database module not found (run enable-database first)"
         else PStr ("❌ Error: " +:+ str_take 50 (str_exn e))]>
       (<["database_url" := PStr "✅ Configured"]>
          (<["database" := PStr "✅ Available"]> r0))) ∨
  (∃ db has e name, import_db w = Ok (Some db) ∧ hasattr_name db = Ok has ∧
     first_collections db = Raise e ∧
     snd (test_database_probe w r0) =
     <["database" :=
         PStr ("⚠️  Connected but Error: " +:+ str_take 50 (str_exn e))]>
       (connected name r0)) ∨
  (∃ db has first10 name, import_db w = Ok (Some db) ∧
     hasattr_name db = Ok has ∧ first_collections db = Ok first10 ∧
     snd (test_database_probe w r0) =
     <["database" := PStr "✅ Connected & Working"]>
       (<["collections" := first10]> (connected name r0))).
Proof.
  destruct (import_db w) as [[db|]|e] eqn:H.
  - destruct (hasattr_name db) as [has|e] eqn:Hname.
    + destruct (first_collections db) as [v|e] eqn:Hlist.
      * destruct (probe_listing_works w r0 db has v H Hname Hlist) as [name ?].
        do 4 right. by exists db, has, v, name.
      * destruct (probe_listing_fails w r0 db has e H Hname Hlist) as [name ?].
        do 3 right. left. by exists db, has, e, name.
    + do 2 right. left. exists db, e.
      by rewrite (probe_name_raises w r0 db e H Hname).
  - right. left. by rewrite (probe_not_initialized w r0 H).
  - left. exists e. by rewrite (probe_import_fails w r0 e H).
Qed.

Lemma dom_response0 : dom response0 = report_keys.
Proof.
  unfold response0, report_keys. rewrite !dom_insert_L, dom_singleton_L.
  cbn. set_solver.
Qed.

(** Assigning to a key of the report leaves its keys as they are. *)
Lemma dom_setitem (key : string) (v : PyVal) (r : Doc) :
  key ∈ report_keys → dom r = report_keys →
  dom (<[key := v]> r) = report_keys.
Proof.
  intros Hkey Hr. rewrite dom_insert_L, Hr.
  apply subseteq_union_1_L. by apply singleton_subseteq_l.
Qed.

Lemma report_keys_elem (key : string) :
  key ∈ ["backend"; "database"; "database_url"; "database_name";
         "connection_status"; "collections"] →
  key ∈ report_keys.
Proof. unfold report_keys. set_solver. Qed.


(** X7: in every state of the database module, the client and the store,
    the report has the same six keys it started with, and [backend] still
    says that the backend is running: no branch adds or drops a key. *)
Theorem report_keys_fixed (w : World) :
  ∃ r, test_database w = Ok r ∧
    dom r = report_keys ∧
    r !! "backend" = Some (PStr "✅ Running").
Proof.
  eexists. split; [apply test_database_run|]. split.
  - do 2 (apply dom_setitem;
          [apply report_keys_elem; repeat first [by left | right]|]).
    destruct (probe_cases w response0)
      as [(e & _ & ->)|[(_ & ->)|[(db & e & _ & _ & ->)
         |[(db & has & e & name & _ & _ & _ & ->)
          |(db & has & v & name & _ & _ & _ & ->)]]]];
      unfold connected;
      repeat first
        [ exact dom_response0
        | apply dom_setitem;
            [apply report_keys_elem; repeat first [by left | right]|] ].
  - rewrite !lookup_insert_ne by done.
    destruct (probe_cases w response0)
      as [(e & _ & ->)|[(_ & ->)|[(db & e & _ & _ & ->)
         |[(db & has & e & name & _ & _ & _ & ->)
          |(db & has & v & name & _ & _ & _ & ->)]]]];
      read_report.
Qed.

(** X8: [connection_status] is ["Connected"] exactly when the module is
    imported, [db] is a handle and looking for its [name] raises nothing,
    whether or not the collections can then be listed; in every other state
    it keeps its initial ["Not Connected"]. *)
Theorem connection_status_reported (w : World) :
  report_field w "connection_status" =
  Some (PStr (if handle_usable w then "Connected" else "Not Connected")).
Proof.
  unfold report_field, handle_usable. rewrite test_database_run.
  rewrite !lookup_insert_ne by done.
  destruct (probe_cases w response0)
    as [(e & -> & ->)|[(-> & ->)|[(db & e & -> & -> & ->)
       |[(db & has & e & name & -> & -> & _ & ->)
        |(db & has & v & name & -> & -> & _ & ->)]]]];
    read_report.
Qed.

(** X9: the report says ["✅ Connected & Working"] exactly when the
    collections were listed and sliced without an exception, and in every
    other state [collections] is still the empty list it started as. *)
Theorem working_status_reported (w : World) :
  (report_field w "database" = Some (PStr "✅ Connected & Working")
   ↔ listing_works w = true) ∧
  (listing_works w = false → report_field w "collections" = Some (PList [])).
Proof.
  unfold report_field, listing_works. rewrite test_database_run.
  rewrite !lookup_insert_ne by done.
  destruct (probe_cases w response0)
    as [(e & -> & ->)|[(-> & ->)|[(db & e & -> & -> & ->)
       |[(db & has & e & name & -> & -> & -> & ->)
        |(db & has & v & name & -> & -> & -> & ->)]]]];
    unfold connected; rewrite lookup_insert_eq;
    rewrite ?lookup_insert_ne by done.
  - split; [|done]. destruct (is_ImportError e); split; discriminate.
  - split; [|done]. split; discriminate.
  - split; [|done]. destruct (is_ImportError e); split; discriminate.
  - split; [|done]. split; discriminate.
  - split; [done|discriminate].
Qed.

(** *** Slicing a string *)

Lemma str_take_len (n : nat) (s : string) : (str_len (str_take n s) ≤ n)%nat.
Proof.
  revert n. induction s as [|a s IH]; intros n; cbn; [lia|].
  destruct (is_continuation a) eqn:Ha.
  - cbn. rewrite Ha. apply IH.
  - destruct n as [|n]; cbn; [lia|]. rewrite Ha. specialize (IH n). lia.
Qed.

Lemma str_take_prefix (n : nat) (s : string) :
  ∃ rest, s = str_take n s +:+ rest.
Proof.
  revert n. induction s as [|a s IH]; intros n; cbn; [by exists ""|].
  destruct (is_continuation a).
  - destruct (IH n) as [rest Hrest]. exists rest.
    exact (f_equal (String a) Hrest).
  - destruct n as [|n]; [by eexists|].
    destruct (IH n) as [rest Hrest]. exists rest.
    exact (f_equal (String a) Hrest).
Qed.

Lemma str_take_len_exact (n : nat) (s : string) :
  (n ≤ str_len s)%nat → str_len (str_take n s) = n.
Proof.
  revert n. induction s as [|a s IH]; intros n; cbn; [lia|].
  destruct (is_continuation a) eqn:Ha.
  - intros Hn. cbn. rewrite Ha. by apply IH.
  - destruct n as [|n]; [done|]. intros Hn. cbn. rewrite Ha, IH; lia.
Qed.

Lemma str_take_all (n : nat) (s : string) :
  (str_len s ≤ n)%nat → str_take n s = s.
Proof.
  revert n. induction s as [|a s IH]; intros n; cbn; [done|].
  destruct (is_continuation a).
  - intros Hn. by rewrite IH.
  - destruct n as [|n]; [lia|]. intros Hn. rewrite IH; [done|lia].
Qed.

(** X10: the text of an exception that the report quotes is the first
    fifty characters of [str(e)]: what follows the label is a prefix of the
    text, the whole text when that has no more than 50 characters and
    exactly 50 characters of it otherwise.  This holds for an error while
    listing the collections and for an error of the import other than an
    [ImportError]. *)
Theorem report_quotes_fifty_characters (w : World) (e : exn) :
  let quoted := str_take 50 (str_exn e) in
  (∃ rest, str_exn e = quoted +:+ rest) ∧
  (str_len (str_exn e) ≤ 50 → quoted = str_exn e)%nat ∧
  (50 ≤ str_len (str_exn e) → str_len quoted = 50)%nat ∧
  (∀ db has, import_db w = Ok (Some db) → hasattr_name db = Ok has →
     first_collections db = Raise e →
     report_field w "database"
     = Some (PStr ("⚠️  Connected but Error: " +:+ quoted))) ∧
  (import_db w = Raise e → is_ImportError e = false →
     report_field w "database" = Some (PStr ("❌ Error: " +:+ quoted))).
Proof.
  intros quoted. subst quoted.
  split; [apply str_take_prefix|]. split; [apply str_take_all|].
  split; [apply str_take_len_exact|].
  unfold report_field. rewrite test_database_run.
  rewrite !lookup_insert_ne by done. split.
  - intros db has H Hname Hlist.
    destruct (probe_listing_fails w response0 db has e H Hname Hlist)
      as [name ->].
    apply lookup_insert_eq.
  - intros H He. rewrite (probe_import_fails w response0 e H), He.
    apply lookup_insert_eq.
Qed.

(** X10 at a server whose error message has 94 characters. *)
Lemma report_quotes_fifty_characters_refused :
  str_len (str_exn long_error) = 94%nat ∧
  report_field (world_of_db db_refused) "database"
  = Some (PStr "⚠️  Connected but Error: db.internal:27017: [Errno 111] Connection refused,").
Proof.
  split; [reflexivity|].
  exact (proj1 (proj2 (proj2 (proj2
           (report_quotes_fifty_characters (world_of_db db_refused) long_error))))
           db_refused true eq_refl eq_refl eq_refl).
Defined.

(** *** What lines 79-80 leave in the report *)

Lemma set_marker_environ (w1 w2 : World) (key : string) :
  environ w1 = environ w2 → set_marker w1 key = set_marker w2 key.
Proof. intros H. unfold set_marker, getenv. by rewrite H. Qed.

(** The two markers overwrite what the probe stored under their keys. *)
Lemma markers_overwrite (url name name1 name2 : PyVal) (r0 : Doc)
    (rest : Doc → Doc) :
  (∀ r1 r2 : Doc, (∀ key, key ≠ "database_name" → r1 !! key = r2 !! key) →
     ∀ key, key ≠ "database_name" → rest r1 !! key = rest r2 !! key) →
  <["database_name" := name]>
    (<["database_url" := url]> (rest (<["database_name" := name1]> r0)))
  = <["database_name" := name]>
      (<["database_url" := url]> (rest (<["database_name" := name2]> r0))).
Proof.
  intros Hrest. apply map_eq. intros key.
  destruct (decide (key = "database_name")) as [->|Hname].
  - by rewrite !lookup_insert_eq.
  - rewrite !(lookup_insert_ne _ "database_name") by done.
    destruct (decide (key = "database_url")) as [->|Hurl].
    + by rewrite !lookup_insert_eq.
    + rewrite !(lookup_insert_ne _ "database_url") by done.
      apply Hrest; [|done]. intros k Hk. by rewrite !lookup_insert_ne.
Qed.

(** X11: what line 80 stores under [database_name] (the value of [db.name],
    or a marker when the handle has no such attribute) never reaches the
    caller: two runs that differ only in that attribute, with the same
    listing of collections and the same environment, return the same
    report. *)
Theorem db_name_not_reported
    (w1 w2 : World) (db1 db2 : Db) (has1 has2 : bool) :
  import_db w1 = Ok (Some db1) → import_db w2 = Ok (Some db2) →
  hasattr_name db1 = Ok has1 → hasattr_name db2 = Ok has2 →
  list_collection_names db1 = list_collection_names db2 →
  environ w1 = environ w2 →
  test_database w1 = test_database w2.
Proof.
  intros H1 H2 Hn1 Hn2 Hlist Henv. rewrite !test_database_run.
  rewrite !(set_marker_environ w1 w2) by done. f_equal.
  assert (first_collections db1 = first_collections db2) as Hfirst
    by (unfold first_collections; by rewrite Hlist).
  destruct (first_collections db2) as [v|e] eqn:Hlist2.
  - destruct (probe_listing_works w1 response0 db1 has1 v) as [n1 ->];
      [done..|].
    destruct (probe_listing_works w2 response0 db2 has2 v) as [n2 ->];
      [done..|].
    unfold connected.
    apply (markers_overwrite _ _ n1 n2 _
             (λ r, <["database" := _]> (<["collections" := _]>
                     (<["connection_status" := _]> r)))).
    intros r1 r2 Hr key Hkey. rewrite !lookup_insert.
    repeat case_decide; auto.
  - destruct (probe_listing_fails w1 response0 db1 has1 e) as [n1 ->];
      [done..|].
    destruct (probe_listing_fails w2 response0 db2 has2 e) as [n2 ->];
      [done..|].
    unfold connected.
    apply (markers_overwrite _ _ n1 n2 _
             (λ r, <["database" := _]> (<["connection_status" := _]> r))).
    intros r1 r2 Hr key Hkey. rewrite !lookup_insert.
    repeat case_decide; auto.
Qed.

(** X11 at a handle under two names, and at one without the attribute. *)
Lemma db_name_not_reported_samples :
  test_database (world_of_db db_live) = test_database (world_of_db db_renamed) ∧
  test_database (world_of_db db_live) = test_database (world_of_db db_nameless).
Proof.
  split.
  - apply (db_name_not_reported (world_of_db db_live) (world_of_db db_renamed)
             db_live db_renamed true true); reflexivity.
  - apply (db_name_not_reported (world_of_db db_live) (world_of_db db_nameless)
             db_live db_nameless true false); reflexivity.
Defined.

(** *** All or nothing, and the part of the clock *)

Section AllOrNothing.
Variable rt : Runtime.
Variable w : World.

(** When the loop returns, it has added one [Gig] for every document. *)
Lemma list_gigs_loop_Ok_length (docs : list Doc) (gigs0 gigs : list Gig)
    (n n' : nat) :
  list_gigs_loop rt w docs gigs0 n = (Ok gigs, n') →
  length gigs = (length gigs0 + length docs)%nat.
Proof.
  revert gigs0 n. induction docs as [|d docs IH]; intros gigs0 n.
  - intros [= <- _]. cbn. lia.
  - cbn [list_gigs_loop]. rewrite run_bind.
    destruct (normalize rt w d n) as [[g|e] n1]; [|discriminate].
    intros Hloop%IH. rewrite Hloop, length_app. cbn. lia.
Qed.

(** When the loop raises, the construction of some document's [Gig] did. *)
Lemma list_gigs_loop_Raise_inv (docs : list Doc) (gigs0 : list Gig)
    (n n' : nat) (e : exn) :
  list_gigs_loop rt w docs gigs0 n = (Raise e, n') →
  ∃ d m m', d ∈ docs ∧ normalize rt w d m = (Raise e, m').
Proof.
  revert gigs0 n. induction docs as [|d docs IH]; intros gigs0 n.
  - discriminate.
  - cbn [list_gigs_loop]. rewrite run_bind.
    destruct (normalize rt w d n) as [[g|e0] n1] eqn:Hd.
    + intros (d' & m & m' & Hin & Hd')%IH. exists d', m, m'.
      split; [by right|done].
    + intros [= <- <-]. exists d, n, n1. split; [by left|done].
Qed.

End AllOrNothing.

(** X12: the list that [list_gigs] returns for a batch is never a part of
    it: it has one [Gig] for every document or it is empty, and it is empty
    only when the store returned no document or the construction of the
    [Gig] of one of the documents raises (which it then does whenever that
    document is normalised). *)
Theorem list_gigs_all_or_nothing
    (rt : Runtime) (w : World) (limit : Z) (n : nat) (docs : list Doc) :
  get_documents w "gig" ∅ limit = Ok docs →
  ∃ gigs, fst (list_gigs rt w limit n) = Ok gigs ∧
    (length gigs = length docs ∨ gigs = []) ∧
    (gigs = [] →
     docs = [] ∨
     ∃ d e, d ∈ docs ∧ ∀ m, ∃ m', normalize rt w d m = (Raise e, m')).
Proof.
  intros Hdocs. rewrite (list_gigs_of_batch rt w limit n docs Hdocs).
  destruct (list_gigs_loop rt w docs [] n) as [[gigs|e] n'] eqn:Hloop.
  - exists gigs. split; [done|].
    apply list_gigs_loop_Ok_length in Hloop. cbn in Hloop.
    split; [by left|]. intros ->. left.
    destruct docs; [done|discriminate].
  - exists []. split; [done|]. split; [by right|]. intros _. right.
    apply list_gigs_loop_Raise_inv in Hloop as (d & m & m' & Hin & Hd).
    exists d, e. split; [done|]. intros m0.
    apply (normalize_Raise_any_time rt w d m m' m0 e Hd).
Qed.

(** X12 at a batch of three that normalise, and at one whose second
    document has no date. *)
Lemma list_gigs_all_or_nothing_samples :
  (∃ gigs, fst (list_gigs python_basic world_clean 20 0%nat) = Ok gigs ∧
     (length gigs = 3%nat ∨ gigs = []) ∧
     (gigs = [] →
      [gig_june; gig_bad_date; gig_sparse] = [] ∨
      ∃ d e, d ∈ [gig_june; gig_bad_date; gig_sparse] ∧
        ∀ m, ∃ m', normalize python_basic world_clean d m = (Raise e, m'))) ∧
  (∃ gigs, fst (list_gigs python_basic world_mixed 20 0%nat) = Ok gigs ∧
     (length gigs = 3%nat ∨ gigs = []) ∧
     (gigs = [] →
      [gig_june; gig_no_date; gig_sparse] = [] ∨
      ∃ d e, d ∈ [gig_june; gig_no_date; gig_sparse] ∧
        ∀ m, ∃ m', normalize python_basic world_mixed d m = (Raise e, m'))).
Proof.
  split.
  - exact (list_gigs_all_or_nothing python_basic world_clean 20 0%nat
             [gig_june; gig_bad_date; gig_sparse] eq_refl).
  - exact (list_gigs_all_or_nothing python_basic world_mixed 20 0%nat
             [gig_june; gig_no_date; gig_sparse] eq_refl).
Defined.

(** Without a date that does not parse, a document is normalised the same
    way whatever the clock says and whenever it is read. *)
Lemma normalize_timeless
    (rt : Runtime) (w1 w2 : World) (d : Doc) (n1 n2 : nat) :
  unparseable_date rt d = false →
  fst (normalize rt w1 d n1) = fst (normalize rt w2 d n2).
Proof.
  unfold unparseable_date. rewrite !normalize_run, !coerce_date_run.
  unfold get.
  destruct (d !! "date") as [[| | | |s| | | |]|]; try reflexivity.
  cbn. by destruct (fromisoformat rt s).
Qed.

Lemma list_gigs_loop_timeless
    (rt : Runtime) (w1 w2 : World) (docs : list Doc) :
  Forall (λ d, unparseable_date rt d = false) docs →
  ∀ gigs0 n1 n2,
    fst (list_gigs_loop rt w1 docs gigs0 n1)
    = fst (list_gigs_loop rt w2 docs gigs0 n2).
Proof.
  induction 1 as [|d docs Hd _ IH]; intros gigs0 n1 n2; [reflexivity|].
  cbn [list_gigs_loop]. rewrite !run_bind.
  pose proof (normalize_timeless rt w1 w2 d n1 n2 Hd) as Hsame.
  destruct (normalize rt w1 d n1) as [[g1|e1] m1],
           (normalize rt w2 d n2) as [[g2|e2] m2];
    cbn in Hsame; try discriminate; injection Hsame as <-; [|reflexivity].
  apply IH.
Qed.

Lemma clock_reads_none (rt : Runtime) (docs : list Doc) :
  clock_reads rt docs = 0%nat →
  Forall (λ d, unparseable_date rt d = false) docs.
Proof.
  induction docs as [|d docs IH]; [constructor|].
  rewrite clock_reads_cons. destruct (unparseable_date rt d) eqn:Hd; [lia|].
  intros Hdocs. constructor; auto.
Qed.

(** X13: when no document of the batch has a date that does not parse, what
    [list_gigs] returns does not depend on the clock or on the moment of
    the call: the current time enters a response only as the fallback of
    line 39. *)
Theorem list_gigs_timeless
    (rt : Runtime) (w1 w2 : World) (limit : Z) (n1 n2 : nat) (docs : list Doc) :
  get_documents w1 "gig" ∅ limit = Ok docs →
  get_documents w2 "gig" ∅ limit = Ok docs →
  clock_reads rt docs = 0%nat →
  fst (list_gigs rt w1 limit n1) = fst (list_gigs rt w2 limit n2).
Proof.
  intros Hdocs1 Hdocs2 Hreads.
  rewrite (list_gigs_of_batch rt w1 limit n1 docs Hdocs1).
  rewrite (list_gigs_of_batch rt w2 limit n2 docs Hdocs2).
  pose proof (list_gigs_loop_timeless rt w1 w2 docs
                (clock_reads_none rt docs Hreads) [] n1 n2) as Hsame.
  destruct (list_gigs_loop rt w1 docs [] n1) as [[g1|e1] m1],
           (list_gigs_loop rt w2 docs [] n2) as [[g2|e2] m2];
    cbn in Hsame |- *; congruence.
Qed.

(** X13 at two stores with the same two documents and clocks that differ. *)
Lemma list_gigs_timeless_frozen :
  fst (list_gigs python_basic world_ticking 20 0%nat)
  = fst (list_gigs python_basic world_frozen 20 7%nat).
Proof.
  apply (list_gigs_timeless python_basic world_ticking world_frozen
           20 0%nat 7%nat [gig_june; gig_sparse]); reflexivity.
Defined.
